(** * circonus-agent: the reverse supervisor and the wmi disk collector

    A shallow embedding of

    - package [reverse] ([reverse.New] and [Reverse.Start], the supervisor
      loop that keeps one reverse connection to the primary broker), and
    - the run gate of [wmi.Disk.Collect],

    together with the properties of the specification that concern them.

    External collaborators (the check/broker resolver, the connection
    package, viper, the clock and the caller's context) are an interface,
    [World]: every call takes the state of the outside world and returns a
    result and the next state.  A run of the supervisor produces the list
    of the calls it made, with their arguments and results. *)

From Stdlib Require Import ZArith String List Bool Lia.
From stdpp Require Import base strings gmap relations.
Import ListNotations.

Local Open Scope string_scope.
Local Open Scope Z_scope.

(** ** Go errors *)

(** The dynamic types of the [error] values that the code inspects.
    [errors_New] and [errors_Wrap] are github.com/pkg/errors; the other
    constructors are the concrete error types and sentinel values of this
    repository that the two packages test for or return. *)
Inductive error : Type :=
| errors_New (msg : string)
| errors_Wrap (cause : error) (msg : string)
| ErrNoOwnerFound (msg : string)                 (* *check.ErrNoOwnerFound *)
| OpError (Fatal RefreshCheck : bool) (msg : string) (* *connection.OpError *)
| ErrTTLNotExpired                               (* collector.ErrTTLNotExpired *)
| ErrAlreadyRunning.                             (* collector.ErrAlreadyRunning *)

(** [errors.Cause]: strips the wrappers added by [errors.Wrap]. *)
Fixpoint Cause (e : error) : error :=
  match e with
  | errors_Wrap c _ => Cause c
  | _ => e
  end.

(** A Go result pair [(v, err)]: the value is meaningful when [err == nil]. *)
Inductive result (A : Type) : Type :=
| Ok (a : A)
| Err (e : error).
Arguments Ok {A} a.
Arguments Err {A} e.

Definition is_Err {A} (x : result A) : bool :=
  match x with Err _ => true | Ok _ => false end.

(** ** time *)

Module time.
(** [time.Time] and [time.Duration] in nanoseconds. *)
Definition Nanosecond : Z := 1.
Definition Second : Z := 1000000000 * Nanosecond.
Definition Minute : Z := 60 * Second.

Definition minDuration : Z := - 2 ^ 63.
Definition maxDuration : Z := 2 ^ 63 - 1.

(** [Time.Sub]: the difference, saturated to the range of an int64. *)
Definition Sub (t u : Z) : Z :=
  let d := t - u in
  if d <? minDuration then minDuration
  else if maxDuration <? d then maxDuration
  else d.
End time.

(** ** Computations that call the outside world

  A computation takes the state [W] of the outside world and returns its
  value, the next state of the world and the list of the calls it made
  (events of type [E]), oldest first. *)

Definition M (W E A : Type) : Type := W -> A * W * list E.

Definition ret {W E A} (a : A) : M W E A := fun w => (a, w, []).

Definition bind {W E A B} (m : M W E A) (k : A -> M W E B) : M W E B :=
  fun w =>
  let '(a, w1, t1) := m w in
  let '(b, w2, t2) := k a w1 in
  (b, w2, (t1 ++ t2)%list).

Notation "x <- m ;; k" := (bind m (fun x => k))
  (at level 100, m at next level, right associativity).
Notation "m ;;; k" := (bind m (fun _ => k))
  (at level 100, right associativity).

Definition emit {W E} (e : E) : M W E unit := fun w => (tt, w, [e]).

(** One call of the world, recorded with its result. *)
Definition call {W E A} (f : W -> A * W) (ev : A -> E) : M W E A :=
  fun w => let '(a, w1) := f w in (a, w1, [ev a]).

Definition value {W E A} (x : A * W * list E) : A := fst (fst x).
Definition trace {W E A} (x : A * W * list E) : list E := snd x.

(** ** Data of package check that the supervisor handles *)

Record ReverseConfig := mkReverseConfig {
  BrokerID : string;
  CN : string;
  BrokerAddr : string;
  ReverseURL : string;
}.

(** [check.ReverseConfigs] is [map[string]ReverseConfig], keyed by CN. *)
Abbreviation ReverseConfigs := (gmap string ReverseConfig).

Record Meta := mkMeta {
  BundleID : string;
  CheckID : string;
  CheckUUID : string;
}.

(** [zerolog.Logger]: the context fields it was built with. *)
Abbreviation Logger := (list (string * string)).

Inductive Level := Debug | Info | Warn | Error.

(** ** Observable calls *)

Inductive event (Chk Conn : Type) : Type :=
| EvGetBool (key : string) (res : bool)
| EvNow (t : Z)
| EvCtxDone (res : bool)
| EvRefreshReverseConfig (c : Chk) (res : option error)
| EvGetReverseConfigs (c : Chk) (res : result (option ReverseConfigs))
| EvCheckMeta (c : Chk) (res : result Meta)
| EvFindPrimary (c : Chk) (arg : option ReverseConfigs) (res : result string)
| EvConnNew (addr : string) (cfg : ReverseConfig) (res : result Conn)
| EvGo (rc : Conn)
| EvConnStart (rc : Conn) (res : option error)
| EvWgDone
| EvWgWait
| EvCancel
| EvLog (lvl : Level) (msg : string).
Arguments EvGetBool {Chk Conn}.
Arguments EvNow {Chk Conn}.
Arguments EvCtxDone {Chk Conn}.
Arguments EvRefreshReverseConfig {Chk Conn}.
Arguments EvGetReverseConfigs {Chk Conn}.
Arguments EvCheckMeta {Chk Conn}.
Arguments EvFindPrimary {Chk Conn}.
Arguments EvConnNew {Chk Conn}.
Arguments EvGo {Chk Conn}.
Arguments EvConnStart {Chk Conn}.
Arguments EvWgDone {Chk Conn}.
Arguments EvWgWait {Chk Conn}.
Arguments EvCancel {Chk Conn}.
Arguments EvLog {Chk Conn}.

(** ** The outside world *)

(** [W] is the state of everything outside the supervisor, [Chk] the
  handle of a [*check.Check] and [Conn] the handle of a
  [*connection.Connection]. *)
Class World (W Chk Conn : Type) := {
  config_KeyReverse : string;
  viper_GetBool : string -> W -> bool * W;
  time_Now : W -> Z * W;
  (* the parent context: [true] when its Done channel is closed *)
  ctx_Done : W -> bool * W;
  chk_RefreshReverseConfig : Chk -> W -> option error * W;
  chk_GetReverseConfigs : Chk -> W -> result (option ReverseConfigs) * W;
  chk_CheckMeta : Chk -> W -> result Meta * W;
  chk_FindPrimaryBrokerInstance :
  Chk -> option ReverseConfigs -> W -> result string * W;
  connection_New : string -> ReverseConfig -> W -> result Conn * W;
  conn_Start : Conn -> W -> option error * W;
}.

(** ** The supervisor *)

Section Reverse.
Context {W Chk Conn : Type} `{World W Chk Conn}.

Abbreviation event := (event Chk Conn).

Abbreviation M := (M W event).

Definition log (lvl : Level) (msg : string) : M unit := emit (EvLog lvl msg).

Record Reverse := mkReverse {
  agentAddress : string;
  configs : option ReverseConfigs;   (* nil until set *)
  chk : Chk;
  enabled : bool;
  logger : Logger;
}.

Definition set_configs (c : option ReverseConfigs) (r : Reverse) : Reverse :=
  mkReverse (agentAddress r) c (chk r) (enabled r) (logger r).

Definition set_logger (l : Logger) (r : Reverse) : Reverse :=
  mkReverse (agentAddress r) (configs r) (chk r) (enabled r) l.

(** [reverse.New] *)
Definition New (parentLogger : Logger) (chk0 : option Chk)
    (agentAddress0 : string) : M (result Reverse) :=
  match chk0 with
  | None => ret (Err (errors_New "invalid check (nil"))
  | Some c =>
    if String.eqb agentAddress0 "" then
      ret (Err (errors_New "invalid agent address (empty)"))
    else
      en <- call (viper_GetBool config_KeyReverse)
                 (EvGetBool config_KeyReverse) ;;
      let r := mkReverse agentAddress0 None c en [] in
      if negb (enabled r) then ret (Ok r)
      else
        cfgs <- call (chk_GetReverseConfigs (chk r)) (EvGetReverseConfigs (chk r)) ;;
        match cfgs with
        | Err err => ret (Err (errors_Wrap err "getting reverse configurations"))
        | Ok cfgs =>
          let r := set_configs cfgs r in
          cm <- call (chk_CheckMeta c) (EvCheckMeta c) ;;
          match cm with
          | Err err => ret (Err (errors_Wrap err "setting up reverse"))
          | Ok cm =>
            let r := set_logger
                       (parentLogger ++
                        [("pkg", "reverse");
                         ("bundle_cid", BundleID cm);
                         ("check_cid", CheckID cm);
                         ("check_uuid", CheckUUID cm)]) r in
            ret (Ok r)
          end
        end
  end.

(** The variables of [Start] that live across iterations.  [cancelled]
    is the state of [rctx]'s own cancel function; [rctx] is done when it
    was called or when the parent context is done. *)
Record LoopVars := mkLoopVars {
  lastRefresh : Z;
  refreshCheck : bool;
  cancelled : bool;
}.

Definition set_refreshCheck (b : bool) (v : LoopVars) : LoopVars :=
  mkLoopVars (lastRefresh v) b (cancelled v).

Definition cancel (v : LoopVars) : M LoopVars :=
  emit EvCancel ;;; ret (mkLoopVars (lastRefresh v) (refreshCheck v) true).

(** How one pass through the body of the [for] ends. *)
Inductive ctl : Type :=
  | Next (r : Reverse) (v : LoopVars)   (* [continue], or the end of the body *)
  | Exit (e : option error)             (* [return e] *)
  | Panic.                              (* nil map pointer dereferenced *)

(** [select { case <-rctx.Done(): ... default: }] *)
Definition rctx_Done (v : LoopVars) : M bool :=
  d <- call ctx_Done EvCtxDone ;;
  ret (cancelled v || d).

Definition time_Since (t : Z) : M Z :=
  now <- call time_Now EvNow ;;
  ret (time.Sub now t).

(** The [if refreshCheck { ... }] block. *)
Definition refresh (r : Reverse) (v : LoopVars) : M ctl :=
  if refreshCheck v then
    log Debug "refreshing check" ;;;
    e <- call (chk_RefreshReverseConfig (chk r)) (EvRefreshReverseConfig (chk r)) ;;
    match e with
    | Some err =>
      log Error "refreshing reverse configuration" ;;;
      _ <- cancel v ;;
      ret (Exit (Some err))
    | None =>
      c <- call (chk_GetReverseConfigs (chk r)) (EvGetReverseConfigs (chk r)) ;;
      match c with
      | Err err =>
        _ <- cancel v ;;
        ret (Exit (Some (errors_Wrap err "getting reverse configurations")))
      | Ok cfgs =>
        ret (Next (set_configs cfgs r) (set_refreshCheck false v))
      end
    end
  else ret (Next r v).

(** The goroutine of one connection followed by [wg.Wait()]. *)
Definition run_connection (v : LoopVars) (rc : Conn) : M LoopVars :=
  emit (EvGo rc) ;;;
  log Debug "starting reverse connection" ;;;
  e <- call (conn_Start rc) (EvConnStart rc) ;;
  v <- match e with
       | Some err =>
         log Warn "reverse connection" ;;;
         match err with
         | OpError Fatal RefreshCheck _ =>
           if Fatal then cancel v
           else if RefreshCheck then ret (set_refreshCheck true v)
           else ret v
         | _ => ret v
         end
       | None => ret v
       end ;;
  emit EvWgDone ;;;
  emit EvWgWait ;;;
  ret v.

(** From "find primary broker instance" to the end of the body. *)
Definition connect (r : Reverse) (v : LoopVars) : M ctl :=
  log Debug "find primary broker instance" ;;;
  p <- call (chk_FindPrimaryBrokerInstance (chk r) (configs r))
            (EvFindPrimary (chk r) (configs r)) ;;
  match p with
  | Err err =>
    match Cause err with
    | ErrNoOwnerFound _ =>
      log Warn "refreshing check bundle configuration" ;;;
      ret (Next r (set_refreshCheck true v))
    | _ => ret (Exit (Some err))
    end
  | Ok primaryCN =>
    log Debug "set broker config" ;;;
    match configs r with
    | None => ret Panic
    | Some m =>
      match m !! primaryCN with
      | None =>
        log Warn "primary broker cn not found, refreshing check" ;;;
        ret (Next r (set_refreshCheck true v))
      | Some cfg =>
        log Debug "reverse broker config" ;;;
        c <- call (connection_New (agentAddress r) cfg)
                  (EvConnNew (agentAddress r) cfg) ;;
        match c with
        | Err err =>
          _ <- cancel v ;;
          ret (Exit (Some err))
        | Ok rc =>
          v <- run_connection v rc ;;
          ret (Next r v)
        end
      end
    end
  end.

(** The body of the [for]. *)
Definition iteration (r : Reverse) (v : LoopVars) : M ctl :=
  done <- rctx_Done v ;;
  if done then ret (Exit None)
  else
    since <- time_Since (lastRefresh v) ;;
    let v := if 5 * time.Minute <? since then set_refreshCheck true v else v in
    c <- refresh r v ;;
    match c with
    | Next r v => connect r v
    | _ => ret c
    end.

Inductive outcome : Type :=
  | Returned (e : option error)
  | Panicked
  | Running.        (* the loop is still going when the fuel is used up *)

(** The [for] loop, at most [fuel] iterations of it. *)
Fixpoint loop (fuel : nat) (r : Reverse) (v : LoopVars) : M outcome :=
  match fuel with
  | O => ret Running
  | S fuel =>
    c <- iteration r v ;;
    match c with
    | Next r v => loop fuel r v
    | Exit e => ret (Returned e)
    | Panic => ret Panicked
    end
  end.

(** [Reverse.Start].  The deferred [cancel()] runs when the function
    returns. *)
Definition Start (fuel : nat) (r : Reverse) : M outcome :=
  if negb (enabled r) then
    log Info "disabled, not starting" ;;;
    ret (Returned None)
  else
    match configs r with
    | None =>
      ret (Returned (Some (errors_New "invalid reverse configurations (nil)")))
    | Some m =>
      if Nat.eqb (size m) 0 then
        ret (Returned (Some (errors_New "invalid reverse configurations (zero)")))
      else
        lastRefresh0 <- call time_Now EvNow ;;
        o <- loop fuel r (mkLoopVars lastRefresh0 false false) ;;
        match o with
        | Running => ret o
        | _ => emit EvCancel ;;; ret o
        end
    end.

End Reverse.

(** ** Classes of events and errors *)

Section Events.
Context {Chk Conn : Type}.

(** The cause of the error is a [check.ErrNoOwnerFound]. *)
Definition no_owner (e : error) : bool :=
  match Cause e with ErrNoOwnerFound _ => true | _ => false end.

(** Events that consult the resolver. *)
Definition resolver_call (e : event Chk Conn) : bool :=
  match e with
  | EvRefreshReverseConfig _ _ | EvGetReverseConfigs _ _
  | EvCheckMeta _ _ | EvFindPrimary _ _ _ => true
  | _ => false
  end.

(** Events of the body from "find primary broker instance" on. *)
Definition connect_event (e : event Chk Conn) : bool :=
  match e with
  | EvFindPrimary _ _ _ | EvConnNew _ _ _ | EvGo _ | EvConnStart _ _
  | EvWgDone | EvWgWait => true
  | _ => false
  end.

Definition head_trace (t : list (event Chk Conn)) : Prop :=
  Forall (fun e => connect_event e = false) t.

(** Readings of the clock and reloads of the check bundle. *)
Definition clock_or_refresh (e : event Chk Conn) : bool :=
  match e with
  | EvNow _ | EvRefreshReverseConfig _ _ => true
  | _ => false
  end.

End Events.

Arguments Next {Chk}.
Arguments Exit {Chk}.
Arguments Panic {Chk}.

(** ** A scripted world

    A concrete [World] whose answers are read off lists, one list for each
    kind of call; a list that has run out answers with a fixed default
    (the parent context is then done, so every scripted run ends). *)

Module Sim.

Record world := mk {
  reverse_enabled : bool;
  clock : list Z;
  done : list bool;
  refreshes : list (option error);
  getconfigs : list (result (option ReverseConfigs));
  metas : list (result Meta);
  primaries : list (result string);
  conns : list (result nat);
  starts : list (option error);
}.

Definition pop {A} (d : A) (l : list A) : A * list A :=
  match l with
  | [] => (d, [])
  | x :: l => (x, l)
  end.

Definition GetBool (key : string) (w : world) : bool * world :=
  (if String.eqb key "reverse" then reverse_enabled w else false, w).

Definition Now (w : world) : Z * world :=
  let '(x, l) := pop 0 (clock w) in
  (x, mk (reverse_enabled w) l (done w) (refreshes w) (getconfigs w)
         (metas w) (primaries w) (conns w) (starts w)).

Definition Done (w : world) : bool * world :=
  let '(x, l) := pop true (done w) in
  (x, mk (reverse_enabled w) (clock w) l (refreshes w) (getconfigs w)
         (metas w) (primaries w) (conns w) (starts w)).

Definition Refresh (c : nat) (w : world) : option error * world :=
  let '(x, l) := pop None (refreshes w) in
  (x, mk (reverse_enabled w) (clock w) (done w) l (getconfigs w)
         (metas w) (primaries w) (conns w) (starts w)).

Definition GetConfigs (c : nat) (w : world)
    : result (option ReverseConfigs) * world :=
  let '(x, l) := pop (Ok None) (getconfigs w) in
  (x, mk (reverse_enabled w) (clock w) (done w) (refreshes w) l
         (metas w) (primaries w) (conns w) (starts w)).

Definition CheckMeta (c : nat) (w : world) : result Meta * world :=
  let '(x, l) := pop (Ok (mkMeta "" "" "")) (metas w) in
  (x, mk (reverse_enabled w) (clock w) (done w) (refreshes w) (getconfigs w)
         l (primaries w) (conns w) (starts w)).

Definition FindPrimary (c : nat) (arg : option ReverseConfigs) (w : world)
    : result string * world :=
  let '(x, l) := pop (Ok "") (primaries w) in
  (x, mk (reverse_enabled w) (clock w) (done w) (refreshes w) (getconfigs w)
         (metas w) l (conns w) (starts w)).

Definition ConnNew (addr : string) (cfg : ReverseConfig) (w : world)
    : result nat * world :=
  let '(x, l) := pop (Ok 0%nat) (conns w) in
  (x, mk (reverse_enabled w) (clock w) (done w) (refreshes w) (getconfigs w)
         (metas w) (primaries w) l (starts w)).

Definition ConnStart (rc : nat) (w : world) : option error * world :=
  let '(x, l) := pop None (starts w) in
  (x, mk (reverse_enabled w) (clock w) (done w) (refreshes w) (getconfigs w)
         (metas w) (primaries w) (conns w) l).

#[global] Instance sim : World world nat nat := {|
  config_KeyReverse := "reverse";
  viper_GetBool := GetBool;
  time_Now := Now;
  ctx_Done := Done;
  chk_RefreshReverseConfig := Refresh;
  chk_GetReverseConfigs := GetConfigs;
  chk_CheckMeta := CheckMeta;
  chk_FindPrimaryBrokerInstance := FindPrimary;
  connection_New := ConnNew;
  conn_Start := ConnStart;
|}.

(** One broker, "b1", and a supervisor configured with it. *)
Definition b1 : ReverseConfig :=
  mkReverseConfig "/broker/1" "b1" "10.0.0.1:43191" "https://b1/check/u#s".

Definition cfgs1 : ReverseConfigs := {[ "b1" := b1 ]}.

Definition r1 : Reverse (Chk := nat) :=
  mkReverse "127.0.0.1:2609" (Some cfgs1) 0%nat true [].

(** Nothing scripted: the parent context is done at the first poll. *)
Definition idle : world := mk true [] [] [] [] [] [] [] [].

(** *** Scripted runs *)

Definition v0 : LoopVars := mkLoopVars 0 false false.

(** A supervisor that is not enabled, and one without configurations. *)
Definition r_disabled : Reverse (Chk := nat) :=
  mkReverse "127.0.0.1:2609" None 0%nat false [].

Definition r_nil : Reverse (Chk := nat) :=
  mkReverse "127.0.0.1:2609" None 0%nat true [].

(** The connection to "b1" ends with a fatal error one second after
    [Start]; the context of the caller is not done at the first three
    polls. *)
Definition fatal : error := OpError true false "x509: certificate signed by unknown authority".

Definition w_fatal : world :=
  mk true [0; 1 * time.Second] [false; false; false] [] [] []
     [Ok "b1"] [Ok 7%nat] [Some fatal].

(** Two connections to "b1" that the broker closes, the first 301 s and
    the second 302 s after [Start]; then the context is done. *)
Definition w_refresh : world :=
  mk true [0; 301 * time.Second; 302 * time.Second] [false; false] []
     [Ok (Some cfgs1); Ok (Some cfgs1)] []
     [Ok "b1"; Ok "b1"] [Ok 1%nat; Ok 2%nat] [None; None].


Definition api_down : error := errors_New "API call: connection refused".

Definition w_lookup_fails : world :=
  mk true [1 * time.Second] [false] [] [] [] [Err api_down] [] [].


(** [CheckMeta] fails. *)
Definition w_no_meta : world :=
  mk true [] [] [] [Ok (Some cfgs1)] [Err api_down] [] [] [].

End Sim.

(** ** The goroutine of a connection and its WaitGroup

    The end of the loop body, [var wg sync.WaitGroup; wg.Add(1);
    go func() { ... rc.Start(rctx) ...; wg.Done() }(); wg.Wait()], as a
    transition system in which the supervisor and the goroutines it
    started are scheduled in any order.  What the supervisor does before
    [connection.New] is left open: from the top of the body it may start
    over ([continue]), return, or obtain a connection. *)

Module Goroutines.

(** Where the supervisor is. *)
Inductive sup_pc : Type :=
| AtTop                          (* top of the body, up to [connection.New] *)
| AtGo (wg : nat) (rc : nat)     (* [wg.Add(1)] done, before the [go] statement *)
| AtWait (wg : nat)              (* in [wg.Wait()] *)
| AtReturn.                      (* [Start] has returned *)

(** Where a goroutine is. *)
Inductive go_pc : Type :=
| InStart (rc : nat)             (* inside [rc.Start(rctx)] *)
| AfterStart.                    (* [rc.Start] has returned, before [wg.Done()] *)

(** A goroutine and the WaitGroup its closure captured. *)
Record goroutine := mkGo { pc : go_pc; captured : nat }.

Record state := mkState {
  sup : sup_pc;
  wgs : gmap nat nat;            (* the counter of each WaitGroup declared so far *)
  pool : list goroutine;         (* the goroutines that have not finished *)
}.

Definition init : state := mkState AtTop ∅ [].

Inductive step : state -> state -> Prop :=
| step_continue wgs pool :
    step (mkState AtTop wgs pool) (mkState AtTop wgs pool)
| step_return wgs pool :
    step (mkState AtTop wgs pool) (mkState AtReturn wgs pool)
| step_new wgs pool wg rc :
    wgs !! wg = None ->
    step (mkState AtTop wgs pool) (mkState (AtGo wg rc) (<[wg := 1%nat]> wgs) pool)
| step_go wgs pool wg rc :
    step (mkState (AtGo wg rc) wgs pool)
         (mkState (AtWait wg) wgs (mkGo (InStart rc) wg :: pool))
| step_start_returns s wgs l1 l2 rc wg :
    step (mkState s wgs (l1 ++ mkGo (InStart rc) wg :: l2))
         (mkState s wgs (l1 ++ mkGo AfterStart wg :: l2))
| step_done s wgs l1 l2 wg n :
    wgs !! wg = Some (S n) ->
    step (mkState s wgs (l1 ++ mkGo AfterStart wg :: l2))
         (mkState s (<[wg := n]> wgs) (l1 ++ l2))
| step_wait wgs pool wg :
    wgs !! wg = Some 0%nat ->
    step (mkState (AtWait wg) wgs pool) (mkState AtTop wgs pool).

Definition reachable (s : state) : Prop := rtc step init s.

Definition in_Start (g : goroutine) : bool :=
  match pc g with InStart _ => true | AfterStart => false end.

(** The connections whose [Start] is running. *)
Definition active (s : state) : nat := length (filter (fun g => in_Start g = true) (pool s)).

(** What holds of every reachable state. *)
Definition inv (s : state) : Prop :=
  match sup s with
  | AtTop | AtReturn => pool s = []
  | AtGo wg _ => pool s = [] /\ wgs s !! wg = Some 1%nat
  | AtWait wg =>
      (pool s = [] /\ wgs s !! wg = Some 0%nat) \/
      (exists p, pool s = [mkGo p wg] /\ wgs s !! wg = Some 1%nat)
  end.

End Goroutines.

(** ** The wmi disk collector *)

Module wmi.

(** What [Disk.Collect] calls and does to the world. *)
Inductive event (Logical Physical : Type) : Type :=
| EvLock
| EvUnlock
| EvNow (t : Z)
| EvQueryLogical (res : result (list Logical))
| EvQueryPhysical (res : result (list Physical))
| EvSetStatus (err : option error)
| EvLog (lvl : Level) (msg : string).
Arguments EvLock {Logical Physical}.
Arguments EvUnlock {Logical Physical}.
Arguments EvNow {Logical Physical}.
Arguments EvQueryLogical {Logical Physical}.
Arguments EvQueryPhysical {Logical Physical}.
Arguments EvSetStatus {Logical Physical}.
Arguments EvLog {Logical Physical}.

(** The fields of the embedded [wmicommon] that the disk collector uses. *)
Record wmicommon := mkCommon {
  id : string;
  pkgID : string;
  lastEnd : Z;
  lastStart : Z;
  runTTL : Z;
  running : bool;
}.

Record Disk := mkDisk {
  common : wmicommon;
  logical : bool;
  physical : bool;
  include : string;
  exclude : string;
}.

(** The texts of the two sentinel errors of package collector. *)
Definition ErrTTLNotExpired_Error : string := "TTL not expired".
Definition ErrAlreadyRunning_Error : string := "already running".

Section Collect.
(** [Logical] and [Physical] are the two Win32_PerfFormattedData_PerfDisk
    row types and [Metrics] is [cgm.Metrics]. *)
Context {W Logical Physical Metrics : Type}.
Variable time_Now : W -> Z * W.
Variable wmi_Query_logical : W -> result (list Logical) * W.
Variable wmi_Query_physical : W -> result (list Physical) * W.
Variable no_metrics : Metrics.
(** The two emitters add the metrics of one disk (they go through
    [cleanName] and [addMetric] of [wmicommon]). *)
Variable emitLogicalDiskMetrics : Disk -> Metrics -> Logical -> Metrics.
Variable emitPhysicalDiskMetrics : Disk -> Metrics -> Physical -> Metrics.
(** [wmicommon.setStatus] *)
Variable setStatus : wmicommon -> Metrics -> option error -> W -> wmicommon * W.

Abbreviation event := (event Logical Physical).
Abbreviation M := (M W event).

Definition log (lvl : Level) (msg : string) : M unit := emit (EvLog lvl msg).

Definition set_common (k : wmicommon) (c : Disk) : Disk :=
  mkDisk k (logical c) (physical c) (include c) (exclude c).

Definition started (now : Z) (k : wmicommon) : wmicommon :=
  mkCommon (id k) (pkgID k) (lastEnd k) now (runTTL k) true.

Definition do_setStatus (c : Disk) (metrics : Metrics) (err : option error) : M Disk :=
  fun w => let '(k, w1) := setStatus (common c) metrics err w in
           (set_common k c, w1, [EvSetStatus err]).

(** The part of [Collect] before the mutex is released: [inl err] when
    the run is refused, [inr c] when it may proceed. *)
Definition gate (c : Disk) : M (error + Disk) :=
  emit EvLock ;;;
  pending <- (if 0 <? runTTL (common c) then
                now <- call time_Now EvNow ;;
                ret (time.Sub now (lastEnd (common c)) <? runTTL (common c))
              else ret false) ;;
  if pending then
    log Warn ErrTTLNotExpired_Error ;;;
    emit EvUnlock ;;;
    ret (inl ErrTTLNotExpired)
  else if running (common c) then
    log Warn ErrAlreadyRunning_Error ;;;
    emit EvUnlock ;;;
    ret (inl ErrAlreadyRunning)
  else
    now <- call time_Now EvNow ;;
    let c := set_common (started now (common c)) c in
    emit EvUnlock ;;;
    ret (inr c).

(** The [if c.logical { ... }] block. *)
Definition collect_logical (c : Disk) (metrics : Metrics) : M (error * Disk + Metrics) :=
  if logical c then
    q <- call wmi_Query_logical EvQueryLogical ;;
    match q with
    | Err err =>
      log Error "wmi query error" ;;;
      c <- do_setStatus c metrics (Some err) ;;
      ret (inl (errors_Wrap err (pkgID (common c)), c))
    | Ok dst =>
      (if Nat.eqb (length dst) 0
       then log Debug "skipping logical disk metrics, no logical disks found"
       else ret tt) ;;;
      ret (inr (fold_left (emitLogicalDiskMetrics c) dst metrics))
    end
  else ret (inr metrics).

(** The [if c.physical { ... }] block. *)
Definition collect_physical (c : Disk) (metrics : Metrics) : M (error * Disk + Metrics) :=
  if physical c then
    q <- call wmi_Query_physical EvQueryPhysical ;;
    match q with
    | Err err =>
      log Error "wmi query error" ;;;
      c <- do_setStatus c metrics (Some err) ;;
      ret (inl (errors_Wrap err (pkgID (common c)), c))
    | Ok dst =>
      (if Nat.eqb (length dst) 0
       then log Debug "skipping physical disk metrics, no physical disks found"
       else ret tt) ;;;
      ret (inr (fold_left (emitPhysicalDiskMetrics c) dst metrics))
    end
  else ret (inr metrics).

(** [Disk.Collect]: the error returned and the collector afterwards. *)
Definition Collect (c : Disk) : M (option error * Disk) :=
  let metrics := no_metrics in
  g <- gate c ;;
  match g with
  | inl err => ret (Some err, c)
  | inr c =>
    l <- collect_logical c metrics ;;
    match l with
    | inl (err, c) => ret (Some err, c)
    | inr metrics =>
      p <- collect_physical c metrics ;;
      match p with
      | inl (err, c) => ret (Some err, c)
      | inr metrics =>
        c <- do_setStatus c metrics None ;;
        ret (None, c)
      end
    end
  end.

(** The events of a run that collect something. *)
Definition collects (e : event) : bool :=
  match e with
  | EvQueryLogical _ | EvQueryPhysical _ | EvSetStatus _ => true
  | _ => false
  end.

End Collect.

(** A world for concrete runs: the clock stands at [w]; both queries find
    no disk; [setStatus] ends the run at the current time. *)
Module Sim.

Definition Now (w : Z) : Z * Z := (w, w).
Definition Query (w : Z) : result (list unit) * Z := (Ok [], w).
Definition setStatus (k : wmicommon) (m : unit) (err : option error) (w : Z)
    : wmicommon * Z :=
  (mkCommon (id k) (pkgID k) w (lastStart k) (runTTL k) false, w).

Definition Collect : Disk -> Z -> (option error * Disk) * Z * list (event unit unit) :=
  Collect Now Query Query tt (fun _ m _ => m) (fun _ m _ => m) setStatus.

Definition disk (lastEnd0 runTTL0 : Z) (running0 : bool) : Disk :=
  mkDisk (mkCommon "disk" "builtins.windows.wmi.disk" lastEnd0 0 runTTL0 running0)
         true true "" "".


(** The clock at 100 s. *)
Definition at_100s : Z := 100 * time.Second.

End Sim.

End wmi.

(** ** More classes of events, for the properties of whole passes *)

Section MoreEvents.
Context {Chk Conn : Type}.

(** The result of [rc.Start] is an [OpError] with [Fatal] set. *)
Definition is_fatal (res : option error) : bool :=
  match res with Some (OpError true _ _) => true | _ => false end.

(** The result of [rc.Start] is an [OpError] with [RefreshCheck] set and
    [Fatal] not set. *)
Definition wants_refresh (res : option error) : bool :=
  match res with Some (OpError false true _) => true | _ => false end.

(** What the goroutine records between the return of [rc.Start] and
    [wg.Done()]. *)
Definition after_Start (res : option error) : list (event Chk Conn) :=
  match res with
  | None => []
  | Some _ =>
    EvLog Warn "reverse connection" ::
    (if is_fatal res then [EvCancel] else [])
  end.

Definition is_ConnNew (e : event Chk Conn) : bool :=
  match e with EvConnNew _ _ _ => true | _ => false end.

Definition is_ConnStart (e : event Chk Conn) : bool :=
  match e with EvConnStart _ _ => true | _ => false end.

(** The outcome that a way of leaving the body gives the loop. *)
Definition ends (c : ctl (Chk := Chk)) : option outcome :=
  match c with
  | Next _ _ => None
  | Exit e => Some (Returned e)
  | Panic => Some Panicked
  end.

End MoreEvents.

Section Forced.
Context {Chk Conn : Type}.

(** The results of calls that end [Start], with the outcome each one
    gives it. *)
Definition forced_outcome (e : event Chk Conn) : option outcome :=
  match e with
  | EvCtxDone true => Some (Returned None)
  | EvRefreshReverseConfig _ (Some err) => Some (Returned (Some err))
  | EvGetReverseConfigs _ (Err err) =>
      Some (Returned (Some (errors_Wrap err "getting reverse configurations")))
  | EvFindPrimary _ _ (Err err) =>
      if no_owner err then None else Some (Returned (Some err))
  | EvFindPrimary _ None (Ok _) => Some Panicked
  | EvConnNew _ _ (Err err) => Some (Returned (Some err))
  | _ => None
  end.

End Forced.

(** ** More scripted runs *)

Module Runs.

(** The refresh that is due 301 s after [Start] fails. *)
Definition w_refresh_fails : Sim.world :=
  Sim.mk true [0; 301 * time.Second] [false] [Some Sim.api_down] [] [] [] [] [].

(** The refresh succeeds and [GetReverseConfigs] fails. *)
Definition w_configs_fail : Sim.world :=
  Sim.mk true [0; 301 * time.Second] [false] [None] [Err Sim.api_down] [] [] [] [].

(** The refresh leaves nil configurations and the lookup names "b1". *)
Definition w_configs_nil : Sim.world :=
  Sim.mk true [0; 301 * time.Second] [false] [None] [Ok None] []
         [Ok "b1"] [] [].

(** [connection.New] fails. *)
Definition w_new_fails : Sim.world :=
  Sim.mk true [0; 1 * time.Second] [false] [] [] []
         [Ok "b1"] [Err Sim.api_down] [].

(** The first connection ends with an [OpError] that asks for a refresh;
    the second is closed by the broker; then the context is done. *)
Definition moved : error := OpError false true "check moved to another broker".

Definition w_moved : Sim.world :=
  Sim.mk true [0; 1 * time.Second; 2 * time.Second] [false; false] [None]
         [Ok (Some Sim.cfgs1)] []
         [Ok "b1"; Ok "b1"] [Ok 1%nat; Ok 2%nat] [Some moved; None].

(** The first pass of the run above, and the state it leaves. *)
Definition pass1 := iteration Sim.r1 Sim.v0 w_moved.

Definition after_pass1 : Sim.world := snd (fst pass1).

Definition v_moved : LoopVars := mkLoopVars 0 true false.

Definition pass2 := iteration Sim.r1 v_moved after_pass1.

End Runs.

(** ** The agent *)

(** A computation of another package, run inside one whose events are of
    type [E']. *)
Definition lift {W E E' A} (f : E -> E') (m : M W E A) : M W E' A :=
  fun w => let '(a, w1, t) := m w in (a, w1, map f t).

Abbreviation reverse_event := event.
Abbreviation reverse_New := New.

Module agent.

(** What [agent.New] calls.  [EvReverse] is a call made by [reverse.New]. *)
Inductive event (Chk Conn B P S L : Type) : Type :=
| EvValidate (res : option error)
| EvCheckNew (res : result (option Chk))
| EvBuiltinsNew (res : result B)
| EvPluginsNew (path : string) (res : result P)
| EvScan (p : P) (b : B) (res : option error)
| EvStatsdNew (res : result S)
| EvServerNew (c : option Chk) (b : B) (p : P) (s : S) (res : result L)
| EvGetReverseAgentAddress (l : L) (res : result string)
| EvReverse (e : reverse_event Chk Conn)
| EvSignalNotifySetup.
Arguments EvValidate {Chk Conn B P S L}.
Arguments EvCheckNew {Chk Conn B P S L}.
Arguments EvBuiltinsNew {Chk Conn B P S L}.
Arguments EvPluginsNew {Chk Conn B P S L}.
Arguments EvScan {Chk Conn B P S L}.
Arguments EvStatsdNew {Chk Conn B P S L}.
Arguments EvServerNew {Chk Conn B P S L}.
Arguments EvGetReverseAgentAddress {Chk Conn B P S L}.
Arguments EvReverse {Chk Conn B P S L}.
Arguments EvSignalNotifySetup {Chk Conn B P S L}.

(** The packages that [agent.New] sets up: [B] is [*builtins.Builtins],
    [P] is [*plugins.Plugins], [S] is [*statsd.Server] and [L] is
    [*server.Server]. *)
Class Packages (W Chk B P S L : Type) := {
  defaults_PluginPath : string;
  config_Validate : W -> option error * W;
  check_New : W -> result (option Chk) * W;
  builtins_New : W -> result B * W;
  plugins_New : string -> W -> result P * W;
  plugins_Scan : P -> B -> W -> option error * W;
  statsd_New : W -> result S * W;
  server_New : option Chk -> B -> P -> S -> W -> result L * W;
  server_GetReverseAgentAddress : L -> W -> result string * W;
  signalNotifySetup : W -> unit * W;
}.

Section Agent.
Context {W Chk Conn B P S L : Type} `{World W Chk Conn} `{Packages W Chk B P S L}.

Abbreviation event := (event Chk Conn B P S L).
Abbreviation M := (M W event).

(** The fields of [Agent] that hold what [New] made; the errgroup, its
    context and the signal channel are left out. *)
Record Agent := mkAgent {
  builtins : B;
  check : option Chk;
  listenServer : L;
  plugins : P;
  reverseConn : Reverse (Chk := Chk);
  statsdServer : S;
  logger : Logger;
}.

(** [agent.New] *)
Definition New : M (result Agent) :=
  let logger0 : Logger := [("pkg", "agent")] in
  err <- call config_Validate EvValidate ;;
  match err with
  | Some err => ret (Err err)
  | None =>
    c <- call check_New EvCheckNew ;;
    match c with
    | Err err => ret (Err err)
    | Ok chk0 =>
      b <- call builtins_New EvBuiltinsNew ;;
      match b with
      | Err err => ret (Err err)
      | Ok b =>
        p <- call (plugins_New defaults_PluginPath)
                  (EvPluginsNew defaults_PluginPath) ;;
        match p with
        | Err err => ret (Err err)
        | Ok p =>
          err <- call (plugins_Scan p b) (EvScan p b) ;;
          match err with
          | Some err => ret (Err err)
          | None =>
            s <- call statsd_New EvStatsdNew ;;
            match s with
            | Err err => ret (Err err)
            | Ok s =>
              l <- call (server_New chk0 b p s) (EvServerNew chk0 b p s) ;;
              match l with
              | Err err => ret (Err err)
              | Ok l =>
                a <- call (server_GetReverseAgentAddress l)
                          (EvGetReverseAgentAddress l) ;;
                match a with
                | Err err => ret (Err err)
                | Ok agentAddress =>
                  rc <- lift EvReverse (reverse_New logger0 chk0 agentAddress) ;;
                  match rc with
                  | Err err => ret (Err err)
                  | Ok rc =>
                    call signalNotifySetup (fun _ => EvSignalNotifySetup) ;;;
                    ret (Ok (mkAgent b chk0 l p rc s logger0))
                  end
                end
              end
            end
          end
        end
      end
    end
  end.

(** The event records a call that returned an error. *)
Definition failed (e : event) : bool :=
  match e with
  | EvValidate (Some _) | EvCheckNew (Err _) | EvBuiltinsNew (Err _)
  | EvPluginsNew _ (Err _) | EvScan _ _ (Some _) | EvStatsdNew (Err _)
  | EvServerNew _ _ _ _ (Err _) | EvGetReverseAgentAddress _ (Err _)
  | EvReverse (EvGetReverseConfigs _ (Err _))
  | EvReverse (EvCheckMeta _ (Err _)) => true
  | _ => false
  end.

End Agent.

End agent.

(** A scripted set of packages over the scripted world: every call
    succeeds, but for the three answers given here. *)
Module AgentSim.

Definition packages (validate : option error) (chk0 : result (option nat))
    (addr : result string) : agent.Packages Sim.world nat unit unit unit unit := {|
  agent.defaults_PluginPath := "plugins";
  agent.config_Validate := fun w => (validate, w);
  agent.check_New := fun w => (chk0, w);
  agent.builtins_New := fun w => (Ok tt, w);
  agent.plugins_New := fun _ w => (Ok tt, w);
  agent.plugins_Scan := fun _ _ w => (None, w);
  agent.statsd_New := fun w => (Ok tt, w);
  agent.server_New := fun _ _ _ _ w => (Ok tt, w);
  agent.server_GetReverseAgentAddress := fun _ w => (addr, w);
  agent.signalNotifySetup := fun w => (tt, w);
|}.

(** All is well and reverse is enabled; the configuration is invalid;
    the server has no address; [check.New] returns nil. *)
Definition good := packages None (Ok (Some 0%nat)) (Ok "127.0.0.1:2609").
Definition invalid := packages (Some Sim.api_down) (Ok (Some 0%nat)) (Ok "127.0.0.1:2609").
Definition no_address := packages None (Ok (Some 0%nat)) (Ok "").
Definition no_check := packages None (Ok None) (Ok "127.0.0.1:2609").

Definition run (p : agent.Packages Sim.world nat unit unit unit unit) :=
  agent.New (Conn := nat) (H0 := p).

(** A world in which reverse is enabled and the resolver answers with the
    configurations of "b1"; one in which it answers with empty
    configurations; one in which reverse is disabled. *)
Definition w_enabled : Sim.world :=
  Sim.mk true [] [] [] [Ok (Some Sim.cfgs1)] [] [] [] [].
Definition w_empty : Sim.world :=
  Sim.mk true [] [] [] [Ok (Some ∅)] [] [] [] [].
Definition w_disabled : Sim.world :=
  Sim.mk false [] [] [] [] [] [] [] [].

End AgentSim.

(** ** Classes of the events of the disk collector *)

Section DiskEvents.
Context {Logical Physical : Type}.

Definition is_SetStatus (e : wmi.event Logical Physical) : bool :=
  match e with wmi.EvSetStatus _ => true | _ => false end.

(** What [Collect] does while it holds the mutex: it reads the clock and
    logs. *)
Definition under_lock (e : wmi.event Logical Physical) : bool :=
  match e with wmi.EvNow _ | wmi.EvLog _ _ => true | _ => false end.

Definition is_mutex (e : wmi.event Logical Physical) : bool :=
  match e with wmi.EvLock | wmi.EvUnlock => true | _ => false end.

End DiskEvents.

(** Runs of the disk collector in which a query fails. *)
Module DiskRuns.

Definition denied : error := errors_New "Access is denied.".

Definition QueryFails (w : Z) : result (list unit) * Z := (Err denied, w).

Definition Collect_logical_fails
    : wmi.Disk -> Z -> (option error * wmi.Disk) * Z * list (wmi.event unit unit) :=
  wmi.Collect wmi.Sim.Now QueryFails wmi.Sim.Query tt
    (fun _ m _ => m) (fun _ m _ => m) wmi.Sim.setStatus.

Definition Collect_physical_fails
    : wmi.Disk -> Z -> (option error * wmi.Disk) * Z * list (wmi.event unit unit) :=
  wmi.Collect wmi.Sim.Now wmi.Sim.Query QueryFails tt
    (fun _ m _ => m) (fun _ m _ => m) wmi.Sim.setStatus.

(** An idle collector with a TTL of 10 s whose last run ended at 50 s. *)
Definition d_idle : wmi.Disk := wmi.Sim.disk (50 * time.Second) (10 * time.Second) false.

End DiskRuns.

(** * Properties *)

(** ** Inversion of computations *)

Section Inversion.
Context {W E : Type}.

Lemma bind_inv {A B} (m : M W E A) (k : A -> M W E B) w b w2 t :
  bind m k w = (b, w2, t) ->
  exists a w1 t1 t2, m w = (a, w1, t1) /\ k a w1 = (b, w2, t2) /\ t = (t1 ++ t2)%list.
Proof.
  unfold bind. destruct (m w) as [[a w1] t1]. destruct (k a w1) as [[b' w2'] t2] eqn:Hk.
  intros [= <- <- <-]. exists a, w1, t1, t2. auto.
Qed.

Lemma ret_inv {A} (a : A) (w : W) b w1 (t : list E) :
  ret a w = (b, w1, t) -> b = a /\ w1 = w /\ t = [].
Proof. unfold ret. intros [= <- <- <-]. auto. Qed.

Lemma emit_inv (e : E) (w : W) b w1 t :
  emit e w = (b, w1, t) -> w1 = w /\ t = [e].
Proof. unfold emit. intros [= <- <- <-]. auto. Qed.

Lemma call_inv {A} (f : W -> A * W) (ev : A -> E) w a w1 t :
  call f ev w = (a, w1, t) -> f w = (a, w1) /\ t = [ev a].
Proof. unfold call. destruct (f w) as [a' w']. intros [= <- <- <-]. auto. Qed.

Lemma bind_run {A B} (m : M W E A) (k : A -> M W E B) w a w1 t1 :
  m w = (a, w1, t1) ->
  bind m k w = (let '(b, w2, t2) := k a w1 in (b, w2, (t1 ++ t2)%list)).
Proof. unfold bind. intros ->. reflexivity. Qed.

End Inversion.

(** Takes a hypothesis [m w = (a, w', t)] apart along the structure of [m]. *)
Ltac inv_run :=
  repeat match goal with
  | H : bind _ _ _ = (_, _, _) |- _ =>
      let H1 := fresh "Hrun" in
      apply bind_inv in H; destruct H as (? & ? & ? & ? & H1 & H & ->);
      cbv beta zeta in H1, H
  | H : ret _ _ = (_, _, _) |- _ =>
      apply ret_inv in H; destruct H as (? & ? & ?); subst
  | H : emit _ _ = (_, _, _) |- _ =>
      apply emit_inv in H; destruct H as (? & ?); subst
  | H : call _ _ _ = (_, _, _) |- _ =>
      apply call_inv in H; destruct H as (? & ?); subst
  | H : (if ?b then _ else _) _ = (_, _, _) |- _ => destruct b eqn:?
  | H : (match ?x with _ => _ end) _ = (_, _, _) |- _ => destruct x eqn:?
  | H : Next _ _ = _ |- _ => inversion H; subst; clear H
  | H : Exit _ = _ |- _ => inversion H; subst; clear H
  | H : Panic = _ |- _ => inversion H; subst; clear H
  end.

(** Settles membership of an event in an explicit trace: what is left
    are the positions at which the event can stand. *)
Ltac in_trace H :=
  simpl in H;
  repeat (destruct H as [H|H]; [try discriminate H|]);
  try contradiction;
  try (inversion H; subst; clear H).

(** ** The supervisor *)

Section ReverseProps.
Context {W Chk Conn : Type} `{World W Chk Conn}.
Implicit Types (r : Reverse (Chk := Chk)) (v : LoopVars) (w : W).
Implicit Types (c : ctl (Chk := Chk)) (t : list (event Chk Conn)).

Lemma head_trace_In th tc (e : event Chk Conn) :
  head_trace th -> connect_event e = true -> In e (th ++ tc) -> In e tc.
Proof.
  intros Hh He Hin. apply in_app_or in Hin. destruct Hin as [Hin|Hin]; [|assumption].
  unfold head_trace in Hh. rewrite Forall_forall in Hh.
  apply list_elem_of_In, Hh in Hin. congruence.
Qed.

(** *** The top of the body *)

(** [rctx] found done at the top of the body: the body returns nil. *)
Lemma iteration_done r v w d w1 :
  ctx_Done w = (d, w1) -> cancelled v || d = true ->
  iteration r v w = (Exit None, w1, [EvCtxDone d]).
Proof.
  intros Hd Hc. unfold iteration, rctx_Done, bind, call, ret.
  rewrite Hd, Hc. reflexivity.
Qed.

(** The body is its head (the poll of the context, the clock and the
    refresh), which may return, followed by [connect]. *)
Lemma iteration_inv r v w c w' t :
  iteration r v w = (c, w', t) ->
  exists th, head_trace th /\
    ((t = th /\ (exists e, c = Exit e) /\
      (In (EvCtxDone true) th -> c = Exit None /\ th = [EvCtxDone true])) \/
     (exists r1 v1 w1 tc,
        connect r1 v1 w1 = (c, w', tc) /\ t = (th ++ tc)%list /\
        ~ In (EvCtxDone true) th /\
        lastRefresh v1 = lastRefresh v /\ cancelled v1 = cancelled v)).
Proof.
  intros Hrun. unfold iteration, refresh, time_Since, rctx_Done, cancel, log in Hrun.
  inv_run.
  all: eexists; split;
    [| first
         [ match goal with
           | Hc : connect _ _ _ = _ |- _ =>
               right; do 4 eexists; split; [exact Hc|];
               split; [rewrite ?app_nil_r, ?app_assoc; reflexivity|]
           end
         | left; split; [reflexivity | split; [eexists; reflexivity|]] ] ].
  all: try (intros Hin; in_trace Hin; rewrite ?orb_true_r in *;
            first [congruence | discriminate | split; reflexivity]).
  all: try (unfold head_trace; simpl; repeat constructor).
  all: try (intros Hin; in_trace Hin; rewrite ?orb_true_r in *;
            first [congruence | discriminate | split; reflexivity]).
  all: simpl; repeat match goal with
       | |- context [if ?b then _ else _] => destruct b
       end; reflexivity.
Qed.

(** *** From the primary lookup to the end of the body *)

Ltac unfold_connect := unfold connect, run_connection, cancel, log in *.

Lemma connect_trace r v w c w' t :
  connect r v w = (c, w', t) ->
  Forall (fun e => match e with
                   | EvCtxDone _ | EvNow _ | EvRefreshReverseConfig _ _
                   | EvGetReverseConfigs _ _ => False
                   | _ => True
                   end) t.
Proof. intros Hrun. unfold_connect. inv_run; simpl; repeat constructor. Qed.

Lemma connect_lastRefresh r v w r' v' w' t :
  connect r v w = (Next r' v', w', t) ->
  lastRefresh v' = lastRefresh v.
Proof. intros Hrun. unfold_connect. inv_run; reflexivity. Qed.

Lemma connect_FindPrimary_error r v w c w' t ch arg e :
  connect r v w = (c, w', t) ->
  In (EvFindPrimary ch arg (Err e)) t ->
  if no_owner e
  then (exists r' v', c = Next r' v' /\ refreshCheck v' = true) /\
       (forall a cfg res, ~ In (EvConnNew a cfg res) t)
  else c = Exit (Some e).
Proof.
  intros Hrun Hin. unfold_connect. unfold no_owner.
  inv_run; in_trace Hin.
  all: try match goal with Hc : Cause _ = _ |- _ => rewrite Hc end.
  all: try reflexivity.
  all: split; [eauto | intros ? ? ? Hn; in_trace Hn].
Qed.


Lemma connect_fatal_OpError r v w c w' t rc b msg :
  connect r v w = (c, w', t) ->
  In (EvConnStart rc (Some (OpError true b msg))) t ->
  In EvCancel t /\ exists r' v', c = Next r' v' /\ cancelled v' = true.
Proof.
  intros Hrun Hin. unfold_connect.
  inv_run; in_trace Hin.
  all: split; [simpl; tauto | eauto].
Qed.

(** *** The loop *)

Lemma loop_done fuel r v w d w1 :
  ctx_Done w = (d, w1) -> cancelled v || d = true ->
  loop (S fuel) r v w = (Returned None, w1, [EvCtxDone d]).
Proof.
  intros Hd Hc. simpl. unfold bind at 1.
  rewrite (iteration_done r v w d w1 Hd Hc). reflexivity.
Qed.


(** Nothing follows a poll that found the context done. *)
Lemma iteration_polled r v w c w' t :
  iteration r v w = (c, w', t) ->
  In (EvCtxDone true) t -> c = Exit None /\ t = [EvCtxDone true].
Proof.
  intros Hrun Hin.
  destruct (iteration_inv _ _ _ _ _ _ Hrun) as (th & Hh & [(-> & _ & Hx)|Hc]).
  - auto.
  - destruct Hc as (r1 & v1 & w1 & tc & Hc & -> & Hn & _).
    apply in_app_or in Hin. destruct Hin as [Hin|Hin]; [tauto|].
    apply connect_trace in Hc. rewrite Forall_forall in Hc.
    apply list_elem_of_In, Hc in Hin. destruct Hin.
Qed.

(** An event of the second half of the body stands in the trace of
    [connect]. *)
Lemma iteration_connect_event r v w c w' t (e : event Chk Conn) :
  iteration r v w = (c, w', t) ->
  In e t -> connect_event e = true ->
  exists th r1 v1 w1 tc,
    head_trace th /\ connect r1 v1 w1 = (c, w', tc) /\
    t = (th ++ tc)%list /\ In e tc.
Proof.
  intros Hrun Hin He.
  destruct (iteration_inv _ _ _ _ _ _ Hrun) as (th & Hh & [(-> & _ & _)|Hc]).
  { unfold head_trace in Hh. rewrite Forall_forall in Hh.
    apply list_elem_of_In, Hh in Hin. congruence. }
  destruct Hc as (r1 & v1 & w1 & tc & Hc & -> & _).
  apply head_trace_In in Hin; [|assumption..].
  exists th, r1, v1, w1, tc. auto.
Qed.

Lemma loop_polled fuel : forall r v w o w' t,
  loop fuel r v w = (o, w', t) ->
  In (EvCtxDone true) t ->
  o = Returned None /\ exists t0, t = (t0 ++ [EvCtxDone true])%list.
Proof.
  induction fuel as [|fuel IH]; intros r v w o w' t Hrun Hin.
  - simpl in Hrun. inv_run. destruct Hin.
  - simpl in Hrun. apply bind_inv in Hrun.
    destruct Hrun as (c & w1 & t1 & t2 & Hi & Hk & ->).
    apply in_app_or in Hin. destruct Hin as [Hin|Hin].
    + destruct (iteration_polled _ _ _ _ _ _ Hi Hin) as [-> ->].
      inv_run. split; [reflexivity|]. exists []. reflexivity.
    + destruct c; inv_run; try destruct Hin.
      destruct (IH _ _ _ _ _ _ Hk Hin) as [-> [t0 ->]].
      split; [reflexivity|]. exists (t1 ++ t0)%list. apply app_assoc.
Qed.

(** C3: a run of [Start] in which the poll at the top of a pass of the
    loop finds the context done returns nil, and does so at that poll:
    only the deferred [cancel()] follows it.  (A context that is done does
    not by itself make [Start] return nil: a run that returns before that
    poll does not look at the context.) *)
Theorem Start_context_cancelled fuel r w o w' t :
  Start fuel r w = (o, w', t) ->
  In (EvCtxDone true) t ->
  o = Returned None /\ exists t0, t = (t0 ++ [EvCtxDone true; EvCancel])%list.
Proof.
  intros Hrun Hin. unfold Start, log in Hrun. inv_run; in_trace Hin.
  all: match goal with
       | Hl : loop _ _ _ _ = (_, _, _), Hi : In _ (_ ++ _) |- _ =>
           apply in_app_or in Hi; destruct Hi as [Hi|Hi];
           [ destruct (loop_polled _ _ _ _ _ _ _ Hl Hi) as [Ho [t0 Ht]];
             try discriminate
           | in_trace Hi ]
       end.
  injection Ho as ->. subst. split; [reflexivity|].
  match goal with |- context [[EvNow ?n]] => exists (EvNow n :: t0) end.
  simpl. rewrite <- app_assoc. reflexivity.
Qed.

(** C4: a disabled supervisor returns nil at once; all it does is log one
    line. *)
Theorem Start_disabled fuel r w :
  enabled r = false ->
  Start fuel r w = (Returned None, w, [EvLog Info "disabled, not starting"]).
Proof. intros Hen. unfold Start. rewrite Hen. reflexivity. Qed.

(** C5: an enabled supervisor whose configurations are nil or empty
    returns an error before the loop: it calls nothing, whatever the
    fuel. *)
Theorem Start_invalid_configs fuel r w :
  enabled r = true ->
  configs r = None \/ configs r = Some ∅ ->
  exists e, Start fuel r w = (Returned (Some e), w, []).
Proof.
  intros Hen [Hc|Hc]; unfold Start; rewrite Hen, Hc; simpl.
  - eexists. reflexivity.
  - rewrite map_size_empty. simpl. eexists. reflexivity.
Qed.



(** C1, as the code has it: when [rc.Start] returns a fatal [OpError] the
    goroutine calls [cancel()] and the body ends normally; the next pass
    finds [rctx] done and returns nil, in every world. *)
Theorem iteration_fatal_OpError r v w c w' t rc b msg :
  iteration r v w = (c, w', t) ->
  In (EvConnStart rc (Some (OpError true b msg))) t ->
  In EvCancel t /\
  exists r' v',
    c = Next r' v' /\ cancelled v' = true /\
    forall fuel w0, value (loop (S fuel) r' v' w0) = Returned None.
Proof.
  intros Hrun Hin.
  destruct (iteration_connect_event _ _ _ _ _ _ _ Hrun Hin eq_refl)
    as (th & r1 & v1 & w1 & tc & Hh & Hc & -> & Hin').
  destruct (connect_fatal_OpError _ _ _ _ _ _ _ _ _ Hc Hin')
    as (Hcancel & r' & v' & -> & Hv).
  split; [apply in_or_app; auto|].
  exists r', v'. split; [reflexivity|]. split; [assumption|].
  intros fuel w0. destruct (ctx_Done w0) as [d w2] eqn:Hd.
  rewrite (loop_done fuel r' v' w0 d w2 Hd); [reflexivity|].
  rewrite Hv. reflexivity.
Qed.

(** *** Whole runs *)

(** An error of the lookup other than "no owner found" is what the loop
    and [Start] return. *)
Lemma loop_lookup_error fuel : forall r v w o w' t ch arg e,
  loop fuel r v w = (o, w', t) ->
  In (EvFindPrimary ch arg (Err e)) t -> no_owner e = false ->
  o = Returned (Some e).
Proof.
  induction fuel as [|fuel IH]; intros r v w o w' t ch arg e Hrun Hin Hno.
  - simpl in Hrun. inv_run. destruct Hin.
  - simpl in Hrun. apply bind_inv in Hrun.
    destruct Hrun as (c & w1 & t1 & t2 & Hi & Hk & ->).
    apply in_app_or in Hin. destruct Hin as [Hin|Hin].
    + destruct (iteration_connect_event _ _ _ _ _ _ _ Hi Hin eq_refl)
        as (th & r1 & v1 & w2 & tc & _ & Hc & _ & Hin').
      pose proof (connect_FindPrimary_error _ _ _ _ _ _ _ _ _ Hc Hin') as Hx.
      rewrite Hno in Hx. subst c. inv_run. reflexivity.
    + destruct c; inv_run; try destruct Hin. eauto.
Qed.

Lemma Start_lookup_error fuel r w o w' t ch arg e :
  Start fuel r w = (o, w', t) ->
  In (EvFindPrimary ch arg (Err e)) t -> no_owner e = false ->
  o = Returned (Some e).
Proof.
  intros Hrun Hin Hno. unfold Start, log in Hrun. inv_run; in_trace Hin.
  all: match goal with
       | Hl : loop _ _ _ _ = (_, _, _), Hi : In _ (_ ++ _) |- _ =>
           apply in_app_or in Hi; destruct Hi as [Hi|Hi];
           [ pose proof (loop_lookup_error _ _ _ _ _ _ _ _ _ _ Hl Hi Hno);
             congruence
           | in_trace Hi ]
       end.
Qed.

(** After a fatal [OpError] the loop returns nil, unless the fuel ends
    with that very pass. *)
Lemma loop_fatal fuel : forall r v w o w' t rc b msg,
  loop fuel r v w = (o, w', t) ->
  In (EvConnStart rc (Some (OpError true b msg))) t ->
  o = Returned None \/ o = Running.
Proof.
  induction fuel as [|fuel IH]; intros r v w o w' t rc b msg Hrun Hin.
  - simpl in Hrun. inv_run. destruct Hin.
  - simpl in Hrun. apply bind_inv in Hrun.
    destruct Hrun as (c & w1 & t1 & t2 & Hi & Hk & ->).
    apply in_app_or in Hin. destruct Hin as [Hin|Hin].
    + destruct (iteration_connect_event _ _ _ _ _ _ _ Hi Hin eq_refl)
        as (th & r1 & v1 & w2 & tc & _ & Hc & _ & Hin').
      destruct (connect_fatal_OpError _ _ _ _ _ _ _ _ _ Hc Hin')
        as (_ & r' & v' & -> & Hv).
      destruct fuel as [|fuel].
      * simpl in Hk. inv_run. auto.
      * destruct (ctx_Done w1) as [d w3] eqn:Hd.
        rewrite (loop_done fuel r' v' w1 d w3 Hd) in Hk
          by (rewrite Hv; reflexivity).
        injection Hk as <- _ _. auto.
    + destruct c; inv_run; try destruct Hin. eauto.
Qed.

Lemma Start_fatal fuel r w o w' t rc b msg :
  Start fuel r w = (o, w', t) ->
  In (EvConnStart rc (Some (OpError true b msg))) t ->
  o = Returned None \/ o = Running.
Proof.
  intros Hrun Hin. unfold Start, log in Hrun. inv_run; in_trace Hin.
  all: match goal with
       | Hl : loop _ _ _ _ = (_, _, _), Hi : In _ (_ ++ _) |- _ =>
           apply in_app_or in Hi; destruct Hi as [Hi|Hi];
           [ destruct (loop_fatal _ _ _ _ _ _ _ _ _ _ Hl Hi);
             auto; discriminate
           | in_trace Hi ]
       end.
Qed.

(** *** The refresh *)

(** The body never assigns [lastRefresh]. *)
Lemma iteration_lastRefresh r v w r' v' w' t :
  iteration r v w = (Next r' v', w', t) ->
  lastRefresh v' = lastRefresh v.
Proof.
  intros Hrun.
  destruct (iteration_inv _ _ _ _ _ _ Hrun) as (th & Hh & [(_ & [e He] & _)|Hc]).
  { discriminate. }
  destruct Hc as (r1 & v1 & w1 & tc & Hc & _ & _ & Hl & _).
  apply connect_lastRefresh in Hc. congruence.
Qed.

(** A pass that gets beyond the poll of the context reloads the check
    bundle exactly when [refreshCheck] is set or more than five minutes
    have passed since [lastRefresh]. *)
Lemma iteration_refreshes r v w c w' t d w1 now w2 :
  iteration r v w = (c, w', t) ->
  ctx_Done w = (d, w1) -> cancelled v || d = false ->
  time_Now w1 = (now, w2) ->
  (exists res, In (EvRefreshReverseConfig (chk r) res) t) <->
  (refreshCheck v = true \/ 5 * time.Minute < time.Sub now (lastRefresh v)).
Proof.
  intros Hrun Hd Hc Hn. unfold iteration, rctx_Done, time_Since in Hrun.
  apply bind_inv in Hrun. destruct Hrun as (a & wa & ta & tb & Hp & Hrun & ->).
  unfold bind, call, ret in Hp. rewrite Hd in Hp. simpl in Hp.
  injection Hp as <- <- <-. rewrite Hc in Hrun.
  apply bind_inv in Hrun. destruct Hrun as (s & ws & ts & tc & Hs & Hrun & ->).
  unfold bind, call, ret in Hs. rewrite Hn in Hs. simpl in Hs.
  injection Hs as <- <- <-. cbv zeta in Hrun.
  apply bind_inv in Hrun. destruct Hrun as (k & wk & tk & tl & Hr & Hrun & ->).
  assert (Htl : forall res, ~ In (EvRefreshReverseConfig (chk r) res) tl).
  { intros res Hin. destruct k; inv_run; try destruct Hin.
    apply connect_trace in Hrun. rewrite Forall_forall in Hrun.
    apply list_elem_of_In, Hrun in Hin. destruct Hin. }
  unfold refresh, cancel, log in Hr.
  destruct (5 * time.Minute <? time.Sub now (lastRefresh v)) eqn:Hlt.
  - apply Z.ltb_lt in Hlt. split; [auto|intros _].
    simpl in Hr. inv_run; eexists; simpl; eauto.
  - apply Z.ltb_ge in Hlt. destruct (refreshCheck v) eqn:Hrc.
    + split; [auto|intros _]. inv_run; eexists; simpl; eauto.
    + split; [|intros [?|?]; [discriminate|lia]].
      intros [res Hin]. inv_run. simpl in Hin. exfalso.
      repeat (destruct Hin as [Hin|Hin]; [discriminate|]).
      exact (Htl _ Hin).
Qed.

(** C9: [New] fails exactly when the check is nil, the address is empty,
    or reverse is enabled and one of its two calls of the resolver fails;
    when reverse is disabled it does not call the resolver, and succeeds
    on a check and an address. *)
Theorem New_error_iff parentLogger chk0 addr w res w' t :
  New parentLogger chk0 addr w = (res, w', t) ->
  (is_Err res = true <->
     chk0 = None \/ addr = "" \/
     (fst (viper_GetBool config_KeyReverse w) = true /\
      exists ch e, In (EvGetReverseConfigs ch (Err e)) t \/
                   In (EvCheckMeta ch (Err e)) t)) /\
  (fst (viper_GetBool config_KeyReverse w) = false ->
     Forall (fun e => resolver_call e = false) t /\
     (chk0 <> None -> addr <> "" -> is_Err res = false)).
Proof.
  intros Hrun. unfold New in Hrun.
  destruct chk0 as [ch|].
  2:{ inv_run. simpl. split; [tauto|]. intros _. split; [constructor|congruence]. }
  destruct (String.eqb addr "") eqn:Haddr.
  { apply String.eqb_eq in Haddr. inv_run. simpl.
    split; [tauto|]. intros _. split; [constructor|congruence]. }
  apply String.eqb_neq in Haddr.
  inv_run; simpl in *;
    match goal with
    | Hg : viper_GetBool _ _ = (?x, _) |- _ =>
        rewrite Hg; simpl; destruct x; try discriminate
    end.
  - split; [|intros _; split; [repeat constructor|reflexivity]].
    split; [discriminate|].
    intros [?|[?|[? _]]]; congruence.
  - split; [|discriminate].
    split; [discriminate|].
    intros [?|[?|[_ (ch' & e & [Hin|Hin])]]]; try congruence; in_trace Hin.
  - split; [|discriminate].
    split; [intros _|reflexivity].
    right; right. split; [reflexivity|]. do 2 eexists. right. simpl. eauto.
  - split; [|discriminate].
    split; [intros _|reflexivity].
    right; right. split; [reflexivity|]. do 2 eexists. left. simpl. eauto.
Qed.

End ReverseProps.

(** *** The theorems on scripted runs *)

Section ReverseRuns.
Import Sim.

Lemma Start_context_cancelled_witness :
  In (EvCtxDone true) (trace (Start 3 r1 idle)) /\
  value (Start 3 r1 idle) = Returned None.
Proof.
  split; [vm_compute; tauto|].
  apply (Start_context_cancelled 3 r1 idle (value (Start 3 r1 idle))
           (snd (fst (Start 3 r1 idle))) (trace (Start 3 r1 idle))).
  - vm_compute. reflexivity.
  - vm_compute. tauto.
Defined.

(** C3, as the specification has it, fails.  The context of the caller
    is done when [Start] is called, and [Start] returns the error of the
    missing configurations: it returns before the loop polls the context.
    And when the context is not done at the first poll but is by the time
    the lookup of the primary broker has failed, [Start] returns the error
    of the lookup without polling again. *)
Lemma Start_cancelled_context_returns_error :
  (fst (ctx_Done idle) = true /\
   value (Start 3 r_nil idle) =
     Returned (Some (errors_New "invalid reverse configurations (nil)")) /\
   value (Start 3 r_nil idle) <> Returned None) /\
  (fst (ctx_Done (snd (fst (Start 3 r1 w_lookup_fails)))) = true /\
   ~ In (EvCtxDone true) (trace (Start 3 r1 w_lookup_fails)) /\
   value (Start 3 r1 w_lookup_fails) = Returned (Some api_down) /\
   value (Start 3 r1 w_lookup_fails) <> Returned None).
Proof.
  split.
  - split; [vm_compute; reflexivity|].
    split; [vm_compute; reflexivity | vm_compute; discriminate].
  - split; [vm_compute; reflexivity|].
    split; [vm_compute; intuition discriminate|].
    split; [vm_compute; reflexivity | vm_compute; discriminate].
Qed.

Lemma Start_disabled_witness :
  Start 3 r_disabled idle = (Returned None, idle, [EvLog Info "disabled, not starting"]).
Proof. apply (Start_disabled 3 r_disabled idle). reflexivity. Defined.

Lemma Start_invalid_configs_witness :
  exists e, Start 3 r_nil idle = (Returned (Some e), idle, []).
Proof.
  apply (Start_invalid_configs 3 r_nil idle); [reflexivity | left; reflexivity].
Defined.



Lemma iteration_fatal_OpError_witness :
  In EvCancel (trace (iteration r1 v0 w_fatal)) /\
  exists r' v',
    value (iteration r1 v0 w_fatal) = Next r' v' /\ cancelled v' = true /\
    forall fuel w0, value (loop (S fuel) r' v' w0) = Returned None.
Proof.
  apply (iteration_fatal_OpError r1 v0 w_fatal
           (value (iteration r1 v0 w_fatal))
           (snd (fst (iteration r1 v0 w_fatal)))
           (trace (iteration r1 v0 w_fatal))
           7%nat false "x509: certificate signed by unknown authority").
  - vm_compute. reflexivity.
  - vm_compute. tauto.
Defined.

(** C1, as the specification has it, fails: the connection returns a
    fatal [OpError], the context of the caller is not done, and [Start]
    returns nil. *)
Lemma Start_fatal_OpError_returns_nil :
  In (EvConnStart 7%nat (Some fatal)) (trace (Start 5 r1 w_fatal)) /\
  ~ In (EvCtxDone true) (trace (Start 5 r1 w_fatal)) /\
  value (Start 5 r1 w_fatal) = Returned None /\
  value (Start 5 r1 w_fatal) <> Returned (Some fatal).
Proof.
  split; [vm_compute; tauto|].
  split; [vm_compute; intuition discriminate|].
  split; [vm_compute; reflexivity | vm_compute; discriminate].
Qed.

(** C2: the check bundle is reloaded 301 s after [Start], and again one
    second later, on the next pass: [lastRefresh] still is the time at
    which [Start] began. *)
Theorem Start_refreshes_again_after_one_second :
  List.filter clock_or_refresh (trace (Start 5 r1 w_refresh)) =
  [ EvNow 0;
    EvNow (301 * time.Second); EvRefreshReverseConfig 0%nat None;
    EvNow (302 * time.Second); EvRefreshReverseConfig 0%nat None ] /\
  value (Start 5 r1 w_refresh) = Returned None.
Proof. split; vm_compute; reflexivity. Qed.

Lemma New_error_iff_witness :
  is_Err (value (New [] (Some 0%nat) "127.0.0.1:2609" w_no_meta)) = true /\
  is_Err (value (New [] (Some 0%nat) "127.0.0.1:2609" idle)) = false.
Proof.
  split.
  - apply (New_error_iff [] (Some 0%nat) "127.0.0.1:2609" w_no_meta
             (value (New [] (Some 0%nat) "127.0.0.1:2609" w_no_meta))
             (snd (fst (New [] (Some 0%nat) "127.0.0.1:2609" w_no_meta)))
             (trace (New [] (Some 0%nat) "127.0.0.1:2609" w_no_meta))).
    + vm_compute. reflexivity.
    + right; right. split; [reflexivity|].
      exists 0%nat, api_down. right. vm_compute. tauto.
  - vm_compute. reflexivity.
Defined.

End ReverseRuns.

(** ** One connection at a time *)

Section GoroutineProps.
Import Goroutines.

Lemma inv_init : inv init.
Proof. reflexivity. Qed.

Lemma pool_singleton (l1 l2 : list goroutine) g g' :
  (l1 ++ g :: l2)%list = [g'] -> l1 = [] /\ l2 = [] /\ g = g'.
Proof.
  destruct l1 as [|a l1]; simpl; intros Heq.
  - injection Heq as -> ->. auto.
  - injection Heq as _ Heq. destruct l1; discriminate.
Qed.

Lemma pool_not_empty (l1 l2 : list goroutine) g : (l1 ++ g :: l2)%list <> [].
Proof. destruct l1; discriminate. Qed.

Lemma inv_step s s' : step s s' -> inv s -> inv s'.
Proof.
  unfold inv. intros Hstep Hinv.
  destruct Hstep as
    [ wgs pool | wgs pool | wgs pool wg rc Hfresh | wgs pool wg rc
    | s wgs l1 l2 rc wg | s wgs l1 l2 wg n Hn | wgs pool wg Hzero ];
    simpl in *.
  - assumption.
  - assumption.
  - split; [assumption|]. apply lookup_insert_eq.
  - destruct Hinv as [-> Hwg]. right. eauto.
  - destruct s as [|wg' rc'|wg'|].
    + exfalso. exact (pool_not_empty _ _ _ Hinv).
    + exfalso. exact (pool_not_empty _ _ _ (proj1 Hinv)).
    + destruct Hinv as [[Hp _]|(p & Hp & Hwg)].
      * exfalso. exact (pool_not_empty _ _ _ Hp).
      * apply pool_singleton in Hp. destruct Hp as (-> & -> & Hg).
        injection Hg as _ <-. right. eauto.
    + exfalso. exact (pool_not_empty _ _ _ Hinv).
  - destruct s as [|wg' rc'|wg'|].
    + exfalso. exact (pool_not_empty _ _ _ Hinv).
    + exfalso. exact (pool_not_empty _ _ _ (proj1 Hinv)).
    + destruct Hinv as [[Hp _]|(p & Hp & Hwg)].
      * exfalso. exact (pool_not_empty _ _ _ Hp).
      * apply pool_singleton in Hp. destruct Hp as (-> & -> & Hg).
        injection Hg as _ <-. left. split; [reflexivity|].
        rewrite Hwg in Hn. injection Hn as <-. apply lookup_insert_eq.
    + exfalso. exact (pool_not_empty _ _ _ Hinv).
  - destruct Hinv as [[Hp _]|(p & _ & Hwg)]; [assumption|congruence].
Qed.

Lemma inv_reachable s : reachable s -> inv s.
Proof.
  unfold reachable. revert s.
  apply (rtc_ind_r inv init); [exact inv_init|].
  intros y z _ Hstep Hy. exact (inv_step y z Hstep Hy).
Qed.

(** C8: in every state that the supervisor and its goroutines can reach,
    in any interleaving, at most one connection is in [Start], and the
    supervisor is at the top of the loop body only when no goroutine is
    left. *)
Theorem one_connection_at_a_time s :
  reachable s ->
  (active s <= 1)%nat /\ (sup s = AtTop -> pool s = []).
Proof.
  intros Hr. apply inv_reachable in Hr. unfold inv in Hr. unfold active.
  destruct (sup s) eqn:Hs.
  - rewrite Hr. simpl. split; [lia|auto].
  - destruct Hr as [-> _]. simpl. split; [lia|discriminate].
  - split; [|discriminate].
    destruct Hr as [[-> _]|(p & -> & _)]; simpl; [lia|].
    destruct p; simpl; lia.
  - rewrite Hr. simpl. split; [lia|discriminate].
Qed.

Lemma one_connection_at_a_time_witness :
  (active (mkState (AtWait 0) (<[0%nat := 1%nat]> ∅) [mkGo (InStart 7) 0]) <= 1)%nat.
Proof.
  apply (one_connection_at_a_time
           (mkState (AtWait 0) (<[0%nat := 1%nat]> ∅) [mkGo (InStart 7) 0])).
  unfold reachable, init.
  eapply rtc_l; [apply (step_new ∅ [] 0%nat 7%nat); reflexivity|].
  eapply rtc_l; [apply step_go|].
  apply rtc_refl.
Defined.

End GoroutineProps.

(** ** The run gate of the disk collector *)

Section CollectProps.
Context {W Logical Physical Metrics : Type}.
Variable time_Now : W -> Z * W.
Variable wmi_Query_logical : W -> result (list Logical) * W.
Variable wmi_Query_physical : W -> result (list Physical) * W.
Variable no_metrics : Metrics.
Variable emitLogicalDiskMetrics : wmi.Disk -> Metrics -> Logical -> Metrics.
Variable emitPhysicalDiskMetrics : wmi.Disk -> Metrics -> Physical -> Metrics.
Variable setStatus : wmi.wmicommon -> Metrics -> option error -> W -> wmi.wmicommon * W.

Abbreviation Collect :=
  (wmi.Collect time_Now wmi_Query_logical wmi_Query_physical no_metrics
     emitLogicalDiskMetrics emitPhysicalDiskMetrics setStatus).





End CollectProps.

Section CollectRuns.
Import wmi.Sim.



(** A collector that is idle and past its TTL does collect. *)
Example Collect_runs :
  wmi.Sim.Collect (disk (50 * time.Second) (10 * time.Second) false) at_100s =
  ((None,
    wmi.mkDisk (wmi.mkCommon "disk" "builtins.windows.wmi.disk" at_100s at_100s
                  (10 * time.Second) false) true true "" ""),
   at_100s,
   [wmi.EvLock; wmi.EvNow at_100s; wmi.EvNow at_100s; wmi.EvUnlock;
    wmi.EvQueryLogical (Ok []);
    wmi.EvLog Debug "skipping logical disk metrics, no logical disks found";
    wmi.EvQueryPhysical (Ok []);
    wmi.EvLog Debug "skipping physical disk metrics, no physical disks found";
    wmi.EvSetStatus None]).
Proof. vm_compute. reflexivity. Qed.

End CollectRuns.


(** * Further properties of the supervisor *)

Section ReverseCases.
Context {W Chk Conn : Type} `{World W Chk Conn}.
Implicit Types (r : Reverse (Chk := Chk)) (v : LoopVars) (w : W).
Implicit Types (c : ctl (Chk := Chk)) (t : list (event Chk Conn)).

(** The ways through the head of the body, with what each records. *)
Lemma iteration_cases r v w c w' t :
  iteration r v w = (c, w', t) ->
  (exists d, cancelled v || d = true /\ c = Exit None /\ t = [EvCtxDone d]) \/
  (cancelled v = false /\ exists now,
     (exists e,
        c = Exit (Some e) /\
        t = [EvCtxDone false; EvNow now; EvLog Debug "refreshing check";
             EvRefreshReverseConfig (chk r) (Some e);
             EvLog Error "refreshing reverse configuration"; EvCancel]) \/
     (exists e,
        c = Exit (Some (errors_Wrap e "getting reverse configurations")) /\
        t = [EvCtxDone false; EvNow now; EvLog Debug "refreshing check";
             EvRefreshReverseConfig (chk r) None;
             EvGetReverseConfigs (chk r) (Err e); EvCancel]) \/
     (exists cfgs w1 tc,
        connect (set_configs cfgs r) (mkLoopVars (lastRefresh v) false false) w1
          = (c, w', tc) /\
        t = ([EvCtxDone false; EvNow now; EvLog Debug "refreshing check";
              EvRefreshReverseConfig (chk r) None;
              EvGetReverseConfigs (chk r) (Ok cfgs)] ++ tc)%list) \/
     (exists w1 tc,
        refreshCheck v = false /\
        connect r (mkLoopVars (lastRefresh v) false false) w1 = (c, w', tc) /\
        t = ([EvCtxDone false; EvNow now] ++ tc)%list)).
Proof.
  intros Hrun.
  unfold iteration, refresh, time_Since, rctx_Done, cancel, log in Hrun.
  inv_run.
  all: match goal with
       | Hb : cancelled ?v0 || ?d = _ |- _ =>
           destruct (cancelled v0) eqn:Hcv; destruct d; simpl in Hb;
           try discriminate Hb
       end.
  all: try (left; eexists; split; [|split]; [|reflexivity|reflexivity];
            rewrite ?Hcv; reflexivity).
  all: right; split; [reflexivity|]; eexists.
  - right; right; left.
    match goal with
    | Hc : connect _ (set_refreshCheck false ?v0) _ = _ |- _ =>
        replace (set_refreshCheck false v0)
          with (mkLoopVars (lastRefresh v) false false) in Hc
          by (destruct (5 * time.Minute <? _); destruct v; simpl in *;
              subst; reflexivity)
    end.
    do 3 eexists. split; [eassumption|reflexivity].
  - left. eexists. split; reflexivity.
  - right; left. eexists. split; reflexivity.
  - right; right; right.
    match goal with
    | Hc : connect _ ?v0 _ = _, Hr : refreshCheck ?v0 = false |- _ =>
        assert (Hv : refreshCheck v = false /\
                     v0 = mkLoopVars (lastRefresh v) false false)
          by (destruct (5 * time.Minute <? _); simpl in Hr;
              [discriminate|];
              destruct v; simpl in *; subst; auto);
        destruct Hv as [Hrc Hv]; rewrite Hv in Hc
    end.
    do 2 eexists. split; [assumption|]. split; [eassumption|reflexivity].
Qed.

(** The ways through the rest of the body, with what each records. *)
Lemma connect_cases r v w c w' t :
  connect r v w = (c, w', t) ->
  (exists e,
     (if no_owner e
      then c = Next r (set_refreshCheck true v) /\
           t = [EvLog Debug "find primary broker instance";
                EvFindPrimary (chk r) (configs r) (Err e);
                EvLog Warn "refreshing check bundle configuration"]
      else c = Exit (Some e) /\
           t = [EvLog Debug "find primary broker instance";
                EvFindPrimary (chk r) (configs r) (Err e)])) \/
  (exists cn,
     let found := [EvLog Debug "find primary broker instance";
                   EvFindPrimary (chk r) (configs r) (Ok cn);
                   EvLog Debug "set broker config"] in
     (configs r = None /\ c = Panic /\ t = found) \/
     (exists m, configs r = Some m /\
        ((m !! cn = None /\ c = Next r (set_refreshCheck true v) /\
          t = (found ++
               [EvLog Warn "primary broker cn not found, refreshing check"])%list) \/
         (exists cfg, m !! cn = Some cfg /\
            let made res := (found ++
                             [EvLog Debug "reverse broker config";
                              EvConnNew (agentAddress r) cfg res])%list in
            ((exists e, c = Exit (Some e) /\
                        t = (made (Err e) ++ [EvCancel])%list) \/
             (exists rc res,
                c = Next r (mkLoopVars (lastRefresh v)
                                       (refreshCheck v || wants_refresh res)
                                       (cancelled v || is_fatal res)) /\
                t = (made (Ok rc) ++
                     [EvGo rc; EvLog Debug "starting reverse connection";
                      EvConnStart rc res] ++
                     after_Start res ++ [EvWgDone; EvWgWait])%list)))))).
Proof.
  intros Hrun. unfold connect, run_connection, cancel, log in Hrun.
  inv_run.
  all: try (left; eexists;
            match goal with
            | Hc : Cause ?e = _ |- _ => unfold no_owner; rewrite Hc
            end; split; reflexivity).
  all: right; eexists; cbv zeta.
  all: try (left; split; [reflexivity|]; split; reflexivity).
  all: right; eexists; split; [reflexivity|].
  all: try (left; split; [eassumption|]; split; reflexivity).
  all: right; eexists; split; [eassumption|]; cbv beta.
  all: try (left; eexists; split; reflexivity).
  all: right;
    match goal with
    | Hs : conn_Start ?rc _ = (?res, _) |- _ => exists rc, res
    end.
  all: split; [|reflexivity].
  all: destruct v as [l rcf cv]; simpl;
    rewrite ?orb_false_r, ?orb_true_r; reflexivity.
Qed.

Ltac cases_iteration H :=
  let Hc := fresh "Hc" in
  destruct (iteration_cases _ _ _ _ _ _ H)
    as [(?d & ?Hd & -> & ->)
       |(?Hcv & ?now &
         [(?e & -> & ->)
         |[(?e & -> & ->)
          |[(?cfgs & ?w1 & ?tc & Hc & ->)
           |(?w1 & ?tc & ?Hrc & Hc & ->)]]])].

Ltac cases_connect H :=
  destruct (connect_cases _ _ _ _ _ _ H)
    as [(?e & ?He)
       |(?cn &
         [(?Hn & -> & ->)
         |(?m & ?Hm &
           [(?Hl & -> & ->)
           |(?cfg & ?Hl &
             [(?e & -> & ->)
             |(?rc & ?res & -> & ->)])])])];
  [ destruct (no_owner _) eqn:?Hno; destruct He as [-> ->] | .. ].

Lemma after_Start_events res (e : event Chk Conn) :
  In e (after_Start res) -> e = EvLog Warn "reverse connection" \/ e = EvCancel.
Proof.
  unfold after_Start. destruct res as [err|]; [|intros []].
  destruct (is_fatal (Some err)); simpl; intuition auto.
Qed.

(** Settles membership in a trace made of explicit events, of what
    follows [rc.Start], and of at most one abstract tail. *)
Ltac in_cases H :=
  simpl in H;
  repeat (destruct H as [H|H]; [try discriminate H|]);
  try contradiction;
  try (apply in_app_or in H; destruct H as [H|H];
       [ apply after_Start_events in H; destruct H as [H|H]
       | simpl in H;
         repeat (destruct H as [H|H]; [try discriminate H|]);
         try contradiction ]);
  try discriminate H;
  try (injection H; intros); subst.

(** *** Calls that end the run *)

Lemma connect_forced r v w c w' t (e : event Chk Conn) o :
  connect r v w = (c, w', t) ->
  In e t -> forced_outcome e = Some o -> ends c = Some o.
Proof.
  intros Hrun Hin Hf. cases_connect Hrun; in_cases Hin; simpl in *;
    try rewrite ?Hno in *; try rewrite ?Hn in *; try rewrite ?Hm in *;
    try congruence.
  all: repeat match type of Hf with
       | context [match ?x with _ => _ end] => destruct x; simpl in *
       end; congruence.
Qed.

Lemma iteration_forced r v w c w' t (e : event Chk Conn) o :
  iteration r v w = (c, w', t) ->
  In e t -> forced_outcome e = Some o -> ends c = Some o.
Proof.
  intros Hrun Hin Hf. cases_iteration Hrun; in_cases Hin; simpl in *;
    try congruence.
  - destruct d; [congruence|discriminate].
  - eapply connect_forced; eassumption.
  - eapply connect_forced; eassumption.
Qed.

Lemma loop_forced fuel : forall r v w o' w' t (e : event Chk Conn) o,
  loop fuel r v w = (o', w', t) ->
  In e t -> forced_outcome e = Some o -> o' = o.
Proof.
  induction fuel as [|fuel IH]; intros r v w o' w' t e o Hrun Hin Hf.
  - simpl in Hrun. inv_run. destruct Hin.
  - simpl in Hrun. apply bind_inv in Hrun.
    destruct Hrun as (c & w1 & t1 & t2 & Hi & Hk & ->).
    apply in_app_or in Hin. destruct Hin as [Hin|Hin].
    + pose proof (iteration_forced _ _ _ _ _ _ _ _ Hi Hin Hf) as He.
      destruct c; simpl in He; inv_run; congruence.
    + destruct c; inv_run; try destruct Hin. eauto.
Qed.

Lemma Start_forced fuel r w o' w' t (e : event Chk Conn) o :
  Start fuel r w = (o', w', t) ->
  In e t -> forced_outcome e = Some o -> o' = o.
Proof.
  intros Hrun Hin Hf. unfold Start, log in Hrun. inv_run.
  all: try (in_cases Hin; simpl in Hf; discriminate).
  all: simpl in Hin; destruct Hin as [Hin|Hin];
    [subst e; discriminate|].
  all: apply in_app_or in Hin; destruct Hin as [Hin|Hin];
    [ pose proof (loop_forced _ _ _ _ _ _ _ _ _ Hrun1 Hin Hf); congruence
    | in_cases Hin; simpl in Hf; discriminate ].
Qed.

(** X1: a failed [RefreshReverseConfig] ends [Start], which returns that
    error as it is. *)
Theorem Start_refresh_error fuel r w o w' t ch e :
  Start fuel r w = (o, w', t) ->
  In (EvRefreshReverseConfig ch (Some e)) t ->
  o = Returned (Some e).
Proof. intros Hrun Hin. exact (Start_forced _ _ _ _ _ _ _ _ Hrun Hin eq_refl). Qed.

(** X2: a failed [GetReverseConfigs] during a refresh ends [Start], which
    returns the error wrapped with "getting reverse configurations". *)
Theorem Start_GetReverseConfigs_error fuel r w o w' t ch e :
  Start fuel r w = (o, w', t) ->
  In (EvGetReverseConfigs ch (Err e)) t ->
  o = Returned (Some (errors_Wrap e "getting reverse configurations")).
Proof. intros Hrun Hin. exact (Start_forced _ _ _ _ _ _ _ _ Hrun Hin eq_refl). Qed.

(** X3: a failed [connection.New] ends [Start], which returns that error
    as it is. *)
Theorem Start_connection_New_error fuel r w o w' t a cfg e :
  Start fuel r w = (o, w', t) ->
  In (EvConnNew a cfg (Err e)) t ->
  o = Returned (Some e).
Proof. intros Hrun Hin. exact (Start_forced _ _ _ _ _ _ _ _ Hrun Hin eq_refl). Qed.

(** X4: when a refresh has left the configurations nil and the lookup
    then names a primary broker, [Start] panics on the nil map pointer:
    the nil check before the loop is not repeated after a refresh. *)
Theorem Start_nil_configs_panic fuel r w o w' t ch cn :
  Start fuel r w = (o, w', t) ->
  In (EvFindPrimary ch None (Ok cn)) t ->
  o = Panicked.
Proof. intros Hrun Hin. exact (Start_forced _ _ _ _ _ _ _ _ Hrun Hin eq_refl). Qed.

(** *** Where the errors of [Start] come from *)

Lemma connect_Exit_source r v w e w' t :
  connect r v w = (Exit (Some e), w', t) ->
  exists ev, In ev t /\ forced_outcome ev = Some (Returned (Some e)).
Proof.
  remember (Exit (Some e)) as c eqn:Hc. intros Hrun.
  cases_connect Hrun; try discriminate; injection Hc as ->.
  - exists (EvFindPrimary (chk r) (configs r) (Err e)).
    split; [right; left; reflexivity|].
    simpl. rewrite Hno. destruct (configs r); reflexivity.
  - exists (EvConnNew (agentAddress r) cfg (Err e)). split; [|reflexivity].
    cbv zeta. simpl. do 4 right. left. reflexivity.
Qed.

Lemma iteration_Exit_source r v w e w' t :
  iteration r v w = (Exit (Some e), w', t) ->
  exists ev, In ev t /\ forced_outcome ev = Some (Returned (Some e)).
Proof.
  remember (Exit (Some e)) as c eqn:Hc. intros Hrun.
  cases_iteration Hrun; try discriminate.
  - injection Hc as ->. exists (EvRefreshReverseConfig (chk r) (Some e)).
    split; [|reflexivity]. simpl. tauto.
  - injection Hc as <-. exists (EvGetReverseConfigs (chk r) (Err e0)).
    split; [|reflexivity]. simpl. tauto.
  - subst c. destruct (connect_Exit_source _ _ _ _ _ _ Hc0) as (ev & Hin & Hf).
    exists ev. split; [apply in_or_app; right; exact Hin | exact Hf].
  - subst c. destruct (connect_Exit_source _ _ _ _ _ _ Hc0) as (ev & Hin & Hf).
    exists ev. split; [apply in_or_app; right; exact Hin | exact Hf].
Qed.

Lemma loop_error_source fuel : forall r v w e w' t,
  loop fuel r v w = (Returned (Some e), w', t) ->
  exists ev, In ev t /\ forced_outcome ev = Some (Returned (Some e)).
Proof.
  induction fuel as [|fuel IH]; intros r v w e w' t Hrun.
  - simpl in Hrun. inv_run. discriminate.
  - simpl in Hrun. apply bind_inv in Hrun.
    destruct Hrun as (c & w1 & t1 & t2 & Hi & Hk & ->).
    destruct c as [r' v'|e'|].
    + destruct (IH _ _ _ _ _ _ Hk) as (ev & Hin & Hf).
      exists ev. split; [apply in_or_app; right; exact Hin | exact Hf].
    + unfold ret in Hk. injection Hk as -> <- <-.
      destruct (iteration_Exit_source _ _ _ _ _ _ Hi) as (ev & Hin & Hf).
      exists ev. split; [apply in_or_app; left; exact Hin | exact Hf].
    + unfold ret in Hk. discriminate Hk.
Qed.

(** X5: every error that [Start] returns is one of these: the two errors
    for nil and for empty configurations, returned before anything is
    called; the error of a failed [RefreshReverseConfig]; the wrapped
    error of a failed [GetReverseConfigs]; an error of the lookup of the
    primary broker that is not "no owner found"; the error of a failed
    [connection.New].  The error of a connection's [Start] is not among
    them. *)
Theorem Start_error_sources fuel r w e w' t :
  Start fuel r w = (Returned (Some e), w', t) ->
  (t = [] /\
   ((configs r = None /\
     e = errors_New "invalid reverse configurations (nil)") \/
    (exists m, configs r = Some m /\ size m = 0%nat /\
     e = errors_New "invalid reverse configurations (zero)"))) \/
  (exists ch, In (EvRefreshReverseConfig ch (Some e)) t) \/
  (exists ch e0, In (EvGetReverseConfigs ch (Err e0)) t /\
                 e = errors_Wrap e0 "getting reverse configurations") \/
  (exists ch arg, In (EvFindPrimary ch arg (Err e)) t /\ no_owner e = false) \/
  (exists a cfg, In (EvConnNew a cfg (Err e)) t).
Proof.
  intros Hrun. unfold Start, log in Hrun.
  destruct (enabled r); simpl in Hrun.
  2:{ unfold bind, emit, ret in Hrun. discriminate. }
  destruct (configs r) as [m|] eqn:Hcfg.
  2:{ unfold ret in Hrun. injection Hrun as <- _ <-. left. auto. }
  destruct (Nat.eqb (size m) 0) eqn:Hsz.
  { unfold ret in Hrun. injection Hrun as <- _ <-. left.
    split; [reflexivity|]. right. exists m. apply Nat.eqb_eq in Hsz. auto. }
  apply bind_inv in Hrun. destruct Hrun as (now & w1 & t1 & t2 & Hn & Hrun & ->).
  apply bind_inv in Hrun. destruct Hrun as (o & w2 & tl & t3 & Hl & Hrun & ->).
  assert (Ho : o = Returned (Some e)).
  { destruct o; unfold bind, emit, ret in Hrun; simpl in Hrun; congruence. }
  subst o. right.
  destruct (loop_error_source _ _ _ _ _ _ _ Hl) as (ev & Hin & Hf).
  assert (Hin' : forall ev', ev' = ev -> In ev' (t1 ++ tl ++ t3)).
  { intros ev' ->. apply in_or_app. right. apply in_or_app. left. exact Hin. }
  destruct ev as [| |[]|? [?|]|? [?|?]| |? [?|] [?|?]|? ? [?|?]| | | | | |];
    simpl in Hf; try discriminate.
  - injection Hf as <-. left. eexists. apply Hin'. reflexivity.
  - injection Hf as <-. right; left. do 2 eexists.
    split; [apply Hin'|]; reflexivity.
  - destruct (no_owner e0) eqn:Hno; [discriminate|]. injection Hf as <-.
    right; right; left. do 2 eexists. split; [apply Hin'; reflexivity|assumption].
  - destruct (no_owner e0) eqn:Hno; [discriminate|]. injection Hf as <-.
    right; right; left. do 2 eexists. split; [apply Hin'; reflexivity|assumption].
  - injection Hf as <-. right; right; right. do 2 eexists.
    apply Hin'. reflexivity.
Qed.

(** *** What a connection leaves behind *)

Lemma iteration_connection_result r v w c w' t rc res :
  iteration r v w = (c, w', t) ->
  In (EvConnStart rc res) t ->
  exists r',
    c = Next r' (mkLoopVars (lastRefresh v) (wants_refresh res) (is_fatal res)) /\
    agentAddress r' = agentAddress r /\ chk r' = chk r.
Proof.
  intros Hrun Hin.
  cases_iteration Hrun; in_cases Hin;
    cases_connect Hc; in_cases Hin; eexists; simpl; auto.
Qed.

(** X6: a pass that ran a connection ends normally, with [refreshCheck]
    set exactly when [rc.Start] returned an [OpError] that is not fatal
    and asks for a refresh, and with [rctx] cancelled exactly when it
    returned a fatal [OpError]; any other result, nil or an error of
    another type (a wrapped [OpError] too), changes nothing. *)
Theorem iteration_after_connection r v w c w' t rc res :
  iteration r v w = (c, w', t) ->
  In (EvConnStart rc res) t ->
  exists r' v',
    c = Next r' v' /\ lastRefresh v' = lastRefresh v /\
    refreshCheck v' = wants_refresh res /\ cancelled v' = is_fatal res.
Proof.
  intros Hrun Hin.
  destruct (iteration_connection_result _ _ _ _ _ _ _ _ Hrun Hin) as (r' & -> & _).
  do 2 eexists. split; [reflexivity|]. simpl. auto.
Qed.

(** X7: after a connection that ended with a non-fatal [OpError] asking
    for a refresh, the next pass, if it finds the context not done,
    reloads the check bundle before it does anything else with the
    resolver. *)
Theorem refresh_follows_RefreshCheck r v w r' v' w' t rc msg c2 w2 t2 :
  iteration r v w = (Next r' v', w', t) ->
  In (EvConnStart rc (Some (OpError false true msg))) t ->
  iteration r' v' w' = (c2, w2, t2) ->
  In (EvCtxDone false) t2 ->
  exists now res rest,
    t2 = EvCtxDone false :: EvNow now :: EvLog Debug "refreshing check" ::
         EvRefreshReverseConfig (chk r) res :: rest.
Proof.
  intros Hrun Hin Hnext Hpoll.
  destruct (iteration_connection_result _ _ _ _ _ _ _ _ Hrun Hin)
    as (r1 & Hc & _ & Hch).
  injection Hc as -> ->. rewrite <- Hch. clear Hrun Hin.
  cases_iteration Hnext; in_cases Hpoll; try discriminate; eauto.
Qed.

(** *** The arguments of the calls *)

Lemma iteration_keeps r v w c w' t :
  iteration r v w = (c, w', t) ->
  forall r' v', c = Next r' v' ->
  agentAddress r' = agentAddress r /\ chk r' = chk r /\ enabled r' = enabled r.
Proof.
  intros Hrun.
  cases_iteration Hrun; try discriminate;
    cases_connect Hc; intros r' v' Heq; try discriminate;
    injection Heq as <- <-; auto.
Qed.

Lemma iteration_connection_arguments r v w c w' t a cfg res :
  iteration r v w = (c, w', t) ->
  In (EvConnNew a cfg res) t ->
  a = agentAddress r /\
  exists m cn, In (EvFindPrimary (chk r) (Some m) (Ok cn)) t /\ m !! cn = Some cfg.
Proof.
  intros Hrun Hin.
  cases_iteration Hrun; in_cases Hin;
    cases_connect Hc; in_cases Hin; simpl in *;
    (split; [reflexivity|]); exists m, cn; rewrite ?Hm; simpl; tauto.
Qed.

Lemma loop_connection_arguments fuel : forall r v w o w' t a cfg res,
  loop fuel r v w = (o, w', t) ->
  In (EvConnNew a cfg res) t ->
  a = agentAddress r /\
  exists m cn, In (EvFindPrimary (chk r) (Some m) (Ok cn)) t /\ m !! cn = Some cfg.
Proof.
  induction fuel as [|fuel IH]; intros r v w o w' t a cfg res Hrun Hin.
  - simpl in Hrun. unfold ret in Hrun. injection Hrun as _ _ <-. destruct Hin.
  - simpl in Hrun. apply bind_inv in Hrun.
    destruct Hrun as (c & w1 & t1 & t2 & Hi & Hk & ->).
    apply in_app_or in Hin. destruct Hin as [Hin|Hin].
    + destruct (iteration_connection_arguments _ _ _ _ _ _ _ _ _ Hi Hin)
        as (Ha & m & cn & Hf & Hl).
      split; [assumption|]. exists m, cn. split; [apply in_or_app; auto|assumption].
    + destruct c as [r' v'|e|]; try (unfold ret in Hk; injection Hk as _ _ <-;
                                     destruct Hin).
      destruct (iteration_keeps _ _ _ _ _ _ Hi _ _ eq_refl) as (Ha & Hc & _).
      destruct (IH _ _ _ _ _ _ _ _ _ Hk Hin) as (Ha' & m & cn & Hf & Hl).
      rewrite Ha', Ha. split; [reflexivity|]. exists m, cn.
      rewrite <- Hc. split; [apply in_or_app; auto|assumption].
Qed.

(** X8: every connection of a run is made for the agent address of the
    Reverse, with the configuration that the configurations passed to a
    lookup of this run hold under the CN that the lookup returned. *)
Theorem Start_connection_arguments fuel r w o w' t a cfg res :
  Start fuel r w = (o, w', t) ->
  In (EvConnNew a cfg res) t ->
  a = agentAddress r /\
  exists m cn, In (EvFindPrimary (chk r) (Some m) (Ok cn)) t /\ m !! cn = Some cfg.
Proof.
  intros Hrun Hin. unfold Start, log in Hrun.
  destruct (enabled r); simpl in Hrun.
  2:{ unfold bind, emit, ret in Hrun. injection Hrun as _ _ <-. in_cases Hin. }
  destruct (configs r) as [m|] eqn:Hcfg.
  2:{ unfold ret in Hrun. injection Hrun as _ _ <-. destruct Hin. }
  destruct (Nat.eqb (size m) 0) eqn:Hsz.
  { unfold ret in Hrun. injection Hrun as _ _ <-. destruct Hin. }
  apply bind_inv in Hrun. destruct Hrun as (now & w1 & t1 & t2 & Hn & Hrun & ->).
  apply bind_inv in Hrun. destruct Hrun as (o' & w2 & tl & t3 & Hl & Hrun & ->).
  apply call_inv in Hn. destruct Hn as [_ ->].
  assert (Ht3 : ~ In (EvConnNew a cfg res) t3).
  { destruct o'; unfold bind, emit, ret in Hrun; simpl in Hrun;
      injection Hrun as _ _ <-; simpl; intuition discriminate. }
  simpl in Hin. destruct Hin as [Hin|Hin]; [discriminate|].
  apply in_app_or in Hin. destruct Hin as [Hin|Hin]; [|contradiction].
  destruct (loop_connection_arguments _ _ _ _ _ _ _ _ _ _ Hl Hin)
    as (Ha & m' & cn & Hf & Hlk).
  split; [assumption|]. exists m', cn. split; [|assumption].
  simpl. right. apply in_or_app. auto.
Qed.

(** X9: in a pass, the lookup of the primary broker is given the
    configurations that [GetReverseConfigs] returned in this pass, when
    the pass reloaded the check bundle, and the configurations the
    Reverse had at the start of the pass otherwise. *)
Theorem iteration_lookup_configs r v w c w' t ch arg res :
  iteration r v w = (c, w', t) ->
  In (EvFindPrimary ch arg res) t ->
  ch = chk r /\
  ((In (EvGetReverseConfigs (chk r) (Ok arg)) t) \/
   ((forall ch' x, ~ In (EvGetReverseConfigs ch' x) t) /\ arg = configs r)).
Proof.
  intros Hrun Hin.
  cases_iteration Hrun; in_cases Hin.
  - pose proof Hc as Hc'. cases_connect Hc; in_cases Hin; simpl;
      (split; [reflexivity|]); left; tauto.
  - pose proof (connect_trace _ _ _ _ _ _ Hc) as Htr.
    rewrite Forall_forall in Htr.
    assert (Hno : forall ch' x, ~ In (EvGetReverseConfigs ch' x)
                                  ([EvCtxDone false; EvNow now] ++ tc)).
    { intros ch' x Hx. simpl in Hx. destruct Hx as [Hx|[Hx|Hx]];
        try discriminate. apply list_elem_of_In, Htr in Hx. exact Hx. }
    cases_connect Hc; in_cases Hin; simpl in *; rewrite ?Hm, ?Hn in *;
      (split; [reflexivity|]); right; (split; [exact Hno|reflexivity]).
Qed.

(** X10: a pass makes at most one connection; it starts only a connection
    that [connection.New] returned in this pass, and when it started one
    the pass ends with [wg.Done()] and the return of [wg.Wait()]. *)
Theorem iteration_one_connection r v w c w' t :
  iteration r v w = (c, w', t) ->
  (length (List.filter is_ConnNew t) <= 1)%nat /\
  (length (List.filter is_ConnStart t) <= 1)%nat /\
  (forall rc res, In (EvConnStart rc res) t ->
     (exists cfg, In (EvConnNew (agentAddress r) cfg (Ok rc)) t) /\
     exists pre, t = (pre ++ [EvWgDone; EvWgWait])%list).
Proof.
  intros Hrun.
  assert (Hafter : forall res,
            List.filter is_ConnNew (after_Start res ++ [EvWgDone; EvWgWait])
              = @nil (event Chk Conn) /\
            List.filter is_ConnStart (after_Start res ++ [EvWgDone; EvWgWait])
              = @nil (event Chk Conn)).
  { intros [e|]; [|split; reflexivity]. unfold after_Start.
    destruct (is_fatal (Some e)); split; reflexivity. }
  cases_iteration Hrun.
  1-3: simpl; (split; [lia|]); (split; [lia|]); intros ? ? Hin; in_cases Hin.
  all: cases_connect Hc; simpl; try destruct (Hafter res) as [Hf1 Hf2];
    rewrite ?Hf1, ?Hf2; simpl; (split; [lia|]); (split; [lia|]);
    intros rc' res' Hin; in_cases Hin.
  all: split; [eexists; simpl; rewrite ?Hm; tauto|].
  all: rewrite ?app_comm_cons;
    repeat match goal with
    | |- context [?x :: ?l ++ ?k] => change (x :: l ++ k) with ((x :: l) ++ k)
    end;
    rewrite ?app_assoc; eexists; reflexivity.
Qed.

End ReverseCases.

(** *** The further theorems on scripted runs *)

Section ReverseMoreRuns.
Import Sim Runs.

Lemma Start_refresh_error_witness :
  value (Start 3 r1 w_refresh_fails) = Returned (Some api_down).
Proof.
  apply (Start_refresh_error 3 r1 w_refresh_fails
           (value (Start 3 r1 w_refresh_fails))
           (snd (fst (Start 3 r1 w_refresh_fails)))
           (trace (Start 3 r1 w_refresh_fails)) 0%nat api_down).
  - vm_compute. reflexivity.
  - vm_compute. tauto.
Defined.

Lemma Start_GetReverseConfigs_error_witness :
  value (Start 3 r1 w_configs_fail) =
  Returned (Some (errors_Wrap api_down "getting reverse configurations")).
Proof.
  apply (Start_GetReverseConfigs_error 3 r1 w_configs_fail
           (value (Start 3 r1 w_configs_fail))
           (snd (fst (Start 3 r1 w_configs_fail)))
           (trace (Start 3 r1 w_configs_fail)) 0%nat api_down).
  - vm_compute. reflexivity.
  - vm_compute. tauto.
Defined.

Lemma Start_connection_New_error_witness :
  value (Start 3 r1 w_new_fails) = Returned (Some api_down).
Proof.
  apply (Start_connection_New_error 3 r1 w_new_fails
           (value (Start 3 r1 w_new_fails))
           (snd (fst (Start 3 r1 w_new_fails)))
           (trace (Start 3 r1 w_new_fails)) "127.0.0.1:2609" b1 api_down).
  - vm_compute. reflexivity.
  - vm_compute. tauto.
Defined.

Lemma Start_nil_configs_panic_witness :
  value (Start 3 r1 w_configs_nil) = Panicked.
Proof.
  apply (Start_nil_configs_panic 3 r1 w_configs_nil
           (value (Start 3 r1 w_configs_nil))
           (snd (fst (Start 3 r1 w_configs_nil)))
           (trace (Start 3 r1 w_configs_nil)) 0%nat "b1").
  - vm_compute. reflexivity.
  - vm_compute. tauto.
Defined.

Lemma Start_error_sources_witness :
  exists a cfg, In (EvConnNew a cfg (Err api_down)) (trace (Start 3 r1 w_new_fails)).
Proof.
  destruct (Start_error_sources 3 r1 w_new_fails api_down
              (snd (fst (Start 3 r1 w_new_fails)))
              (trace (Start 3 r1 w_new_fails)))
    as [[Hnil _]|[[ch Hin]|[(ch & e0 & Hin & _)|[(ch & arg & Hin & _)|Hnew]]]].
  - vm_compute. reflexivity.
  - vm_compute in Hnil. discriminate.
  - exfalso. vm_compute in Hin. intuition discriminate.
  - exfalso. vm_compute in Hin. intuition discriminate.
  - exfalso. vm_compute in Hin. intuition discriminate.
  - exact Hnew.
Defined.

Lemma iteration_after_connection_witness :
  exists r' v',
    value pass1 = Next r' v' /\ lastRefresh v' = 0 /\
    refreshCheck v' = true /\ cancelled v' = false.
Proof.
  apply (iteration_after_connection r1 v0 w_moved
           (value pass1) (snd (fst pass1)) (trace pass1) 1%nat (Some moved)).
  - vm_compute. reflexivity.
  - vm_compute. tauto.
Defined.

Lemma refresh_follows_RefreshCheck_witness :
  exists now res rest,
    trace pass2 =
    EvCtxDone false :: EvNow now :: EvLog Debug "refreshing check" ::
    EvRefreshReverseConfig 0%nat res :: rest.
Proof.
  apply (refresh_follows_RefreshCheck r1 v0 w_moved r1 v_moved after_pass1
           (trace pass1) 1%nat "check moved to another broker"
           (value pass2) (snd (fst pass2)) (trace pass2)).
  - vm_compute. reflexivity.
  - vm_compute. tauto.
  - vm_compute. reflexivity.
  - vm_compute. tauto.
Defined.

Lemma Start_connection_arguments_witness :
  "127.0.0.1:2609" = agentAddress r1 /\
  exists m cn,
    In (EvFindPrimary 0%nat (Some m) (Ok cn)) (trace (Start 5 r1 w_moved)) /\
    m !! cn = Some b1.
Proof.
  apply (Start_connection_arguments 5 r1 w_moved
           (value (Start 5 r1 w_moved)) (snd (fst (Start 5 r1 w_moved)))
           (trace (Start 5 r1 w_moved)) "127.0.0.1:2609" b1 (Ok 2%nat)).
  - vm_compute. reflexivity.
  - vm_compute. tauto.
Defined.

Lemma iteration_lookup_configs_witness :
  0%nat = chk r1 /\
  (In (EvGetReverseConfigs (chk r1) (Ok (Some cfgs1))) (trace pass2) \/
   ((forall ch' x, ~ In (EvGetReverseConfigs ch' x) (trace pass2)) /\
    Some cfgs1 = configs r1)).
Proof.
  apply (iteration_lookup_configs r1 v_moved after_pass1
           (value pass2) (snd (fst pass2)) (trace pass2)
           0%nat (Some cfgs1) (Ok "b1")).
  - vm_compute. reflexivity.
  - vm_compute. tauto.
Defined.

Lemma iteration_one_connection_witness :
  (length (List.filter is_ConnNew (trace pass1)) <= 1)%nat.
Proof.
  apply (iteration_one_connection r1 v0 w_moved
           (value pass1) (snd (fst pass1)) (trace pass1)).
  vm_compute. reflexivity.
Defined.

End ReverseMoreRuns.

(** * Properties of [reverse.New] and of [agent.New] *)

Section NewProps.
Context {W Chk Conn : Type} `{World W Chk Conn}.

(** The ways through [reverse.New], with what each records. *)
Lemma New_cases (pl : Logger) (chk0 : option Chk) addr (w : W) res w' t :
  New pl chk0 addr w = (res, w', t) ->
  (chk0 = None /\ res = Err (errors_New "invalid check (nil") /\ t = []) \/
  (exists c, chk0 = Some c /\
     ((addr = "" /\ res = Err (errors_New "invalid agent address (empty)") /\
       t = []) \/
      (addr <> "" /\
       ((fst (viper_GetBool config_KeyReverse w) = false /\
         res = Ok (mkReverse addr None c false []) /\
         t = [EvGetBool config_KeyReverse false]) \/
        (fst (viper_GetBool config_KeyReverse w) = true /\
         ((exists e,
             res = Err (errors_Wrap e "getting reverse configurations") /\
             t = [EvGetBool config_KeyReverse true;
                  EvGetReverseConfigs c (Err e)]) \/
          (exists cfgs e,
             res = Err (errors_Wrap e "setting up reverse") /\
             t = [EvGetBool config_KeyReverse true;
                  EvGetReverseConfigs c (Ok cfgs); EvCheckMeta c (Err e)]) \/
          (exists cfgs cm,
             res = Ok (mkReverse addr cfgs c true
                         (pl ++ [("pkg", "reverse");
                                 ("bundle_cid", BundleID cm);
                                 ("check_cid", CheckID cm);
                                 ("check_uuid", CheckUUID cm)])) /\
             t = [EvGetBool config_KeyReverse true;
                  EvGetReverseConfigs c (Ok cfgs); EvCheckMeta c (Ok cm)]))))))).
Proof.
  intros Hrun. unfold New in Hrun.
  destruct chk0 as [c|]; [right; exists c; split; [reflexivity|] | left].
  2:{ unfold ret in Hrun. injection Hrun as <- _ <-. auto. }
  destruct (String.eqb addr "") eqn:Haddr.
  { apply String.eqb_eq in Haddr. unfold ret in Hrun.
    injection Hrun as <- _ <-. left. auto. }
  apply String.eqb_neq in Haddr. right. split; [assumption|].
  apply bind_inv in Hrun. destruct Hrun as (en & w1 & t1 & t2 & Hen & Hrun & ->).
  apply call_inv in Hen. destruct Hen as [Hen ->]. rewrite Hen. simpl fst.
  simpl in Hrun. destruct en; simpl in Hrun.
  2:{ unfold ret in Hrun. injection Hrun as <- _ <-. left. auto. }
  right. split; [reflexivity|].
  inv_run; simpl.
  - right; right. do 2 eexists. split; reflexivity.
  - right; left. do 2 eexists. split; reflexivity.
  - left. eexists. split; reflexivity.
Qed.

(** X11: a Reverse that [New] returns holds the check and the address it
    was given, and the address is not empty.  When reverse is disabled
    it has no configurations and [New] called nothing but viper; when
    enabled it has the configurations that [GetReverseConfigs] returned
    (nil or empty ones too) and a logger with the three ids of
    [CheckMeta], and [New] called the resolver exactly twice. *)
Theorem New_result (pl : Logger) (chk0 : option Chk) addr (w : W) r w' t :
  New pl chk0 addr w = (Ok r, w', t) ->
  chk0 = Some (chk r) /\ addr <> "" /\ agentAddress r = addr /\
  enabled r = fst (viper_GetBool config_KeyReverse w) /\
  (enabled r = false ->
     configs r = None /\ logger r = [] /\ t = [EvGetBool config_KeyReverse false]) /\
  (enabled r = true ->
     exists cm,
       t = [EvGetBool config_KeyReverse true;
            EvGetReverseConfigs (chk r) (Ok (configs r));
            EvCheckMeta (chk r) (Ok cm)] /\
       logger r = (pl ++ [("pkg", "reverse"); ("bundle_cid", BundleID cm);
                          ("check_cid", CheckID cm);
                          ("check_uuid", CheckUUID cm)])%list).
Proof.
  intros Hrun.
  destruct (New_cases _ _ _ _ _ _ _ Hrun)
    as [(_ & Hr & _)
       |(c & -> & [(_ & Hr & _)
                  |(Ha & [(Hen & Hr & ->)
                         |(Hen & [(e & Hr & _)
                                 |[(cfgs & e & Hr & _)
                                  |(cfgs & cm & Hr & ->)]])])])];
    try discriminate; injection Hr as ->; simpl; rewrite Hen;
    repeat split; auto; try discriminate.
  intros _. exists cm. auto.
Qed.

(** X12: [New] and [Start] together.  When reverse is disabled, the
    Reverse that [New] returns makes [Start] return nil at once.  When
    [GetReverseConfigs] gave [New] nil or empty configurations, [New]
    succeeds all the same and it is [Start] that returns the error,
    before it calls anything. *)
Theorem New_then_Start (pl : Logger) (chk0 : option Chk) addr (w : W) r w1 t :
  New pl chk0 addr w = (Ok r, w1, t) ->
  (fst (viper_GetBool config_KeyReverse w) = false ->
   forall fuel w2,
     Start fuel r w2 = (Returned None, w2, [EvLog Info "disabled, not starting"])) /\
  (forall ch cfgs,
     In (EvGetReverseConfigs ch (Ok cfgs)) t ->
     cfgs = None \/ cfgs = Some ∅ ->
     forall fuel w2, exists e, Start fuel r w2 = (Returned (Some e), w2, [])).
Proof.
  intros Hrun.
  destruct (New_cases _ _ _ _ _ _ _ Hrun)
    as [(_ & Hr & _)
       |(c & -> & [(_ & Hr & _)
                  |(Ha & [(Hen & Hr & ->)
                         |(Hen & [(e & Hr & _)
                                 |[(cfgs & e & Hr & _)
                                  |(cfgs & cm & Hr & ->)]])])])];
    try discriminate; injection Hr as ->; rewrite Hen; split;
    try discriminate.
  - intros _ fuel w2. reflexivity.
  - intros ch cfgs Hin. simpl in Hin. intuition discriminate.
  - intros ch cfgs' Hin Hc fuel w2. simpl in Hin.
    destruct Hin as [Hin|[Hin|[Hin|[]]]]; try discriminate.
    injection Hin as _ <-. unfold Start. simpl.
    destruct Hc as [->| ->]; simpl.
    + eexists. reflexivity.
    + rewrite map_size_empty. simpl. eexists. reflexivity.
Qed.

End NewProps.

Section AgentProps.
Context {W Chk Conn B P S L : Type} `{World W Chk Conn}
        `{agent.Packages W Chk B P S L}.

Lemma lift_inv {E E' A} (f : E -> E') (m : M W E A) w a w' t :
  lift f m w = (a, w', t) ->
  exists t0, m w = (a, w', t0) /\ t = map f t0.
Proof.
  unfold lift. destruct (m w) as [[a0 w0] t0]. intros [= <- <- <-]. eauto.
Qed.

(** Takes a run of [agent.New] apart, down to the way [reverse.New] went. *)
Ltac inv_agent H :=
  unfold agent.New in H; cbv zeta in H; inv_run;
  try match goal with
      | Hl : lift _ _ _ = (_, _, _) |- _ =>
          apply lift_inv in Hl; destruct Hl as (?t0 & Hl & ->);
          destruct (New_cases _ _ _ _ _ _ _ Hl)
            as [(-> & ?Hr & ->)
               |(?c & -> &
                 [(-> & ?Hr & ->)
                 |(?Ha & [(?Hen & ?Hr & ->)
                         |(?Hen & [(?e & ?Hr & ->)
                                  |[(?cfgs & ?e & ?Hr & ->)
                                   |(?cfgs & ?cm & ?Hr & ->)]])])])];
          try discriminate Hr; try (injection Hr as ?; subst)
      end.

(** X13: a successful [agent.New] has called, in this order and each once:
    [config.Validate], [check.New], [builtins.New], [plugins.New] with the
    default plugin path, [Scan] of these plugins with these builtins,
    [statsd.New], [server.New] with the four of them, the server's
    [GetReverseAgentAddress], [reverse.New] and [signalNotifySetup]; the
    Reverse it holds is the one [reverse.New] returned for the check of
    [check.New], which is not nil, the address the server reported and
    the logger of the agent. *)
Theorem agent_New_success (w : W) a w' t :
  agent.New w = (Ok a, w', t) ->
  exists c tr w1 w2,
    agent.check a = Some c /\
    New [("pkg", "agent")] (Some c) (agentAddress (agent.reverseConn a)) w1
      = (Ok (agent.reverseConn a), w2, tr) /\
    t = ([agent.EvValidate None;
          agent.EvCheckNew (Ok (Some c));
          agent.EvBuiltinsNew (Ok (agent.builtins a));
          agent.EvPluginsNew agent.defaults_PluginPath (Ok (agent.plugins a));
          agent.EvScan (agent.plugins a) (agent.builtins a) None;
          agent.EvStatsdNew (Ok (agent.statsdServer a));
          agent.EvServerNew (Some c) (agent.builtins a) (agent.plugins a)
            (agent.statsdServer a) (Ok (agent.listenServer a));
          agent.EvGetReverseAgentAddress (agent.listenServer a)
            (Ok (agentAddress (agent.reverseConn a)))] ++
         map agent.EvReverse tr ++ [agent.EvSignalNotifySetup])%list.
Proof.
  intros Hrun. inv_agent Hrun.
  all: try congruence.
  all: match goal with
       | Heq : Ok ?x = Ok _ |- _ => injection Heq as ->
       end.
  all: do 4 eexists; split; [reflexivity|]; split; [eassumption|]; reflexivity.
Qed.

(** X14: [agent.New] stops at the first call that fails: in its trace only
    the last call can be a failed one, and when a call failed [New]
    returns an error. *)
Theorem agent_New_stops_at_failure (w : W) res w' t :
  agent.New w = (res, w', t) ->
  Forall (fun e => agent.failed e = false) (removelast t) /\
  (existsb agent.failed t = true -> is_Err res = true).
Proof.
  intros Hrun. inv_agent Hrun.
  all: simpl; split; [repeat constructor | try reflexivity; try discriminate].
Qed.

(** X15: [agent.New] succeeds exactly when none of its calls failed,
    [check.New] returned a check that is not nil and the server reported
    an address that is not empty; and exactly then it has called
    [signalNotifySetup]. *)
Theorem agent_New_ok_iff (w : W) res w' t :
  agent.New w = (res, w', t) ->
  (is_Err res = false <->
     (existsb agent.failed t = false /\
      (exists c, In (agent.EvCheckNew (Ok (Some c))) t) /\
      (exists l addr, addr <> "" /\
                      In (agent.EvGetReverseAgentAddress l (Ok addr)) t))) /\
  (is_Err res = false <-> In agent.EvSignalNotifySetup t).
Proof.
  intros Hrun. inv_agent Hrun.
  all: simpl; split; split.
  all: try discriminate.
  all: try (intros _; reflexivity).
  all: try (intros [Hf _]; discriminate Hf).
  all: try (intros Hin; repeat (destruct Hin as [Hin|Hin]; [discriminate Hin|]);
            contradiction).
  all: try (intros (_ & [c' Hc] & _);
            repeat (destruct Hc as [Hc|Hc]; [discriminate Hc|]); contradiction).
  all: try (intros (_ & _ & (l' & a' & Ha' & Hl'));
            repeat (destruct Hl' as [Hl'|Hl']; try discriminate Hl');
            try contradiction; injection Hl' as _ <-; congruence).
  all: try (intros _; split; [reflexivity|]; split;
            [eexists; tauto | do 2 eexists; split; [eassumption|tauto]]).
  all: try tauto.
Qed.

(** X16: when the server reports an empty address, [agent.New] returns an
    error and [reverse.New] has called nothing, whether reverse is enabled
    or not; and [agent.New] never succeeds with a nil check. *)
Theorem agent_New_rejects (w : W) res w' t :
  agent.New w = (res, w', t) ->
  (forall l, In (agent.EvGetReverseAgentAddress l (Ok "")) t ->
     is_Err res = true /\ forall e, ~ In (agent.EvReverse e) t) /\
  (In (agent.EvCheckNew (Ok None)) t -> is_Err res = true).
Proof.
  intros Hrun. inv_agent Hrun.
  all: simpl; split; [intros l' Hin | intros Hin].
  all: repeat (destruct Hin as [Hin|Hin]; [try discriminate Hin|]);
    try contradiction.
  all: try reflexivity.
  all: try (injection Hin as _ He; congruence).
  all: split; [reflexivity|].
  all: intros e' He;
    repeat (destruct He as [He|He]; [try discriminate He|]);
    try contradiction.
Qed.

End AgentProps.

Section NewRuns.
Import Sim AgentSim.

Lemma New_result_witness :
  agentAddress (mkReverse "127.0.0.1:2609" (Some cfgs1) 0%nat true
                  [("pkg", "agent"); ("pkg", "reverse"); ("bundle_cid", "");
                   ("check_cid", ""); ("check_uuid", "")]) = "127.0.0.1:2609".
Proof.
  apply (New_result [("pkg", "agent")] (Some 0%nat) "127.0.0.1:2609" w_enabled
           (mkReverse "127.0.0.1:2609" (Some cfgs1) 0%nat true
              [("pkg", "agent"); ("pkg", "reverse"); ("bundle_cid", "");
               ("check_cid", ""); ("check_uuid", "")])
           (snd (fst (New [("pkg", "agent")] (Some 0%nat) "127.0.0.1:2609" w_enabled)))
           (trace (New [("pkg", "agent")] (Some 0%nat) "127.0.0.1:2609" w_enabled))).
  vm_compute. reflexivity.
Defined.

Lemma New_then_Start_witness :
  exists e,
    Start 3 (mkReverse "127.0.0.1:2609" (Some ∅) 0%nat true
               [("pkg", "reverse"); ("bundle_cid", "");
                ("check_cid", ""); ("check_uuid", "")]) idle
    = (Returned (Some e), idle, []).
Proof.
  apply (New_then_Start [] (Some 0%nat) "127.0.0.1:2609" w_empty
           (mkReverse "127.0.0.1:2609" (Some ∅) 0%nat true
              [("pkg", "reverse"); ("bundle_cid", "");
               ("check_cid", ""); ("check_uuid", "")])
           (snd (fst (New [] (Some 0%nat) "127.0.0.1:2609" w_empty)))
           (trace (New [] (Some 0%nat) "127.0.0.1:2609" w_empty))
         ) with (ch := 0%nat) (cfgs := Some ∅).
  - vm_compute. reflexivity.
  - vm_compute. tauto.
  - right. reflexivity.
Defined.

Lemma agent_New_success_witness :
  is_Err (value (AgentSim.run good w_enabled)) = false /\
  exists c tr w1 w2,
    Some 0%nat = Some c /\
    New [("pkg", "agent")] (Some c) "127.0.0.1:2609" w1
      = (Ok (mkReverse "127.0.0.1:2609" (Some cfgs1) 0%nat true
               [("pkg", "agent"); ("pkg", "reverse"); ("bundle_cid", "");
                ("check_cid", ""); ("check_uuid", "")]), w2, tr) /\
    trace (AgentSim.run good w_enabled) =
    ([agent.EvValidate None; agent.EvCheckNew (Ok (Some c));
      agent.EvBuiltinsNew (Ok tt); agent.EvPluginsNew "plugins" (Ok tt);
      agent.EvScan tt tt None; agent.EvStatsdNew (Ok tt);
      agent.EvServerNew (Some c) tt tt tt (Ok tt);
      agent.EvGetReverseAgentAddress tt (Ok "127.0.0.1:2609")] ++
     map agent.EvReverse tr ++ [agent.EvSignalNotifySetup])%list.
Proof.
  split; [vm_compute; reflexivity|].
  apply (agent_New_success (H0 := good) w_enabled
           (agent.mkAgent tt (Some 0%nat) tt tt
              (mkReverse "127.0.0.1:2609" (Some cfgs1) 0%nat true
                 [("pkg", "agent"); ("pkg", "reverse"); ("bundle_cid", "");
                  ("check_cid", ""); ("check_uuid", "")])
              tt [("pkg", "agent")])
           (snd (fst (AgentSim.run good w_enabled)))
           (trace (AgentSim.run good w_enabled))).
  vm_compute. reflexivity.
Defined.

Lemma agent_New_stops_at_failure_witness :
  Forall (fun e => agent.failed e = false)
         (removelast (trace (AgentSim.run invalid w_enabled))) /\
  (existsb agent.failed (trace (AgentSim.run invalid w_enabled)) = true ->
   is_Err (value (AgentSim.run invalid w_enabled)) = true).
Proof.
  apply (agent_New_stops_at_failure (H0 := invalid) w_enabled
           (value (AgentSim.run invalid w_enabled))
           (snd (fst (AgentSim.run invalid w_enabled)))
           (trace (AgentSim.run invalid w_enabled))).
  vm_compute. reflexivity.
Defined.

Lemma agent_New_ok_iff_witness :
  is_Err (value (AgentSim.run good w_disabled)) = false <->
  In agent.EvSignalNotifySetup (trace (AgentSim.run good w_disabled)).
Proof.
  apply (agent_New_ok_iff (H0 := good) w_disabled
           (value (AgentSim.run good w_disabled))
           (snd (fst (AgentSim.run good w_disabled)))
           (trace (AgentSim.run good w_disabled))).
  vm_compute. reflexivity.
Defined.

Lemma agent_New_rejects_witness :
  is_Err (value (AgentSim.run no_address w_disabled)) = true /\
  is_Err (value (AgentSim.run no_check w_disabled)) = true.
Proof.
  split.
  - apply (agent_New_rejects (H0 := no_address) w_disabled
             (value (AgentSim.run no_address w_disabled))
             (snd (fst (AgentSim.run no_address w_disabled)))
             (trace (AgentSim.run no_address w_disabled))) with (l := tt).
    + vm_compute. reflexivity.
    + vm_compute. tauto.
  - apply (agent_New_rejects (H0 := no_check) w_disabled
             (value (AgentSim.run no_check w_disabled))
             (snd (fst (AgentSim.run no_check w_disabled)))
             (trace (AgentSim.run no_check w_disabled))).
    + vm_compute. reflexivity.
    + vm_compute. tauto.
Defined.

End NewRuns.

(** * Further properties of the disk collector *)

Section CollectMore.
Context {W Logical Physical Metrics : Type}.
Variable time_Now : W -> Z * W.
Variable wmi_Query_logical : W -> result (list Logical) * W.
Variable wmi_Query_physical : W -> result (list Physical) * W.
Variable no_metrics : Metrics.
Variable emitLogicalDiskMetrics : wmi.Disk -> Metrics -> Logical -> Metrics.
Variable emitPhysicalDiskMetrics : wmi.Disk -> Metrics -> Physical -> Metrics.
Variable setStatus : wmi.wmicommon -> Metrics -> option error -> W -> wmi.wmicommon * W.

Abbreviation Collect' :=
  (wmi.Collect time_Now wmi_Query_logical wmi_Query_physical no_metrics
     emitLogicalDiskMetrics emitPhysicalDiskMetrics setStatus).

Lemma do_setStatus_inv (c : wmi.Disk) (m : Metrics) err w c' w' t :
  wmi.do_setStatus (Logical := Logical) (Physical := Physical)
    setStatus c m err w = (c', w', t) ->
  t = [wmi.EvSetStatus err] /\
  exists k, c' = wmi.set_common k c.
Proof.
  unfold wmi.do_setStatus. destruct (setStatus _ _ _ _) as [k w1].
  intros [= <- <- <-]. eauto.
Qed.

(** Takes a run of [Collect] apart. *)
Ltac inv_collect H :=
  unfold wmi.Collect, wmi.gate, wmi.collect_logical, wmi.collect_physical,
    wmi.log in H;
  cbv zeta in H; inv_run;
  repeat match goal with
  | Hs : wmi.do_setStatus _ _ _ _ _ = (_, _, _) |- _ =>
      apply do_setStatus_inv in Hs; destruct Hs as (-> & ?k & ->)
  | Hs : (_, _) = (_, _) |- _ => injection Hs as ? ?; subst
  | Hs : inl _ = inl _ |- _ => injection Hs as ?; subst
  | Hs : inr _ = inr _ |- _ => injection Hs as ?; subst
  | Hs : inl _ = inr _ |- _ => discriminate Hs
  | Hs : inr _ = inl _ |- _ => discriminate Hs
  end;
  try discriminate; simpl in *.

(** The events of a concrete trace before and after its first [Unlock]. *)
Ltac before_unlock l :=
  lazymatch l with
  | wmi.EvUnlock :: _ => constr:(@nil (wmi.event Logical Physical))
  | ?a :: ?l' => let p := before_unlock l' in constr:(a :: p)
  end.
Ltac after_unlock l :=
  lazymatch l with
  | wmi.EvUnlock :: ?l' => constr:(l')
  | _ :: ?l' => after_unlock l'
  end.

(** Splits a concrete trace that ends with a call of [setStatus]. *)
Ltac status_last :=
  lazymatch goal with
  | |- exists pre err, ?l = _ /\ _ =>
    lazymatch l with
    | context [wmi.EvSetStatus ?e] =>
        exists (removelast l), e;
        split; [reflexivity|]; split; [simpl; repeat constructor | reflexivity]
    end
  end.

(** Case analysis on membership in a concrete trace. *)
Ltac in_events :=
  repeat match goal with
  | H : In _ (_ :: _) |- _ => simpl in H
  | H : In _ [] |- _ => destruct H
  | H : False |- _ => destruct H
  | H : _ \/ _ |- _ => destruct H as [H|H]
  | H : @eq (wmi.event _ _) _ _ |- _ =>
      first [discriminate H | injection H as ?; subst | clear H]
  end.

(** X17: a run of [Collect] either is refused, with one of the two
    sentinel errors, the collector as it was and nothing collected, or
    ends with the one call of [setStatus] that it makes; it returns nil
    exactly when that call stored no error, and otherwise the stored error
    wrapped with the package id. *)
Theorem Collect_outcomes (c : wmi.Disk) w r c' w' t :
  Collect' c w = ((r, c'), w', t) ->
  (exists e, (e = ErrTTLNotExpired \/ e = ErrAlreadyRunning) /\
             r = Some e /\ c' = c /\
             Forall (fun e => wmi.collects e = false) t) \/
  (exists pre err,
     t = (pre ++ [wmi.EvSetStatus err])%list /\
     Forall (fun e => is_SetStatus e = false) pre /\
     r = match err with
         | Some e => Some (errors_Wrap e (wmi.pkgID (wmi.common c')))
         | None => None
         end).
Proof.
  intros Hrun. inv_collect Hrun.
  all: first
    [ left;
      lazymatch goal with |- exists e, _ /\ Some ?x = Some e /\ _ => exists x end;
      split; [tauto|]; split; [reflexivity|]; split; [reflexivity|];
      repeat constructor
    | right; status_last ].
Qed.

(** X18: [Collect] takes the mutex first and releases it once, on every
    path; while it holds the mutex it only reads the clock and logs, so
    the queries and [setStatus] come after the release, and it does not
    take the mutex again. *)
Theorem Collect_lock_discipline (c : wmi.Disk) w r c' w' t :
  Collect' c w = ((r, c'), w', t) ->
  exists held rest,
    t = wmi.EvLock :: (held ++ wmi.EvUnlock :: rest)%list /\
    Forall (fun e => under_lock e = true) held /\
    Forall (fun e => is_mutex e = false) rest.
Proof.
  intros Hrun. inv_collect Hrun.
  all: lazymatch goal with
       | |- exists held rest, wmi.EvLock :: ?l = _ /\ _ =>
           let h := before_unlock l in
           let s := after_unlock l in
           exists h, s
       end;
       split; [reflexivity|]; split; repeat constructor.
Qed.

(** X19: [setStatus] is given an error exactly when a query failed, and
    it is the error of that query; [Collect] then returns it wrapped with
    the package id.  After a failed query of the logical disks the
    physical disks are not queried. *)
Theorem Collect_query_failure (c : wmi.Disk) w r c' w' t e :
  Collect' c w = ((r, c'), w', t) ->
  (In (wmi.EvSetStatus (Some e)) t <->
     In (wmi.EvQueryLogical (Err e)) t \/ In (wmi.EvQueryPhysical (Err e)) t) /\
  (In (wmi.EvSetStatus (Some e)) t ->
     r = Some (errors_Wrap e (wmi.pkgID (wmi.common c')))) /\
  (In (wmi.EvQueryLogical (Err e)) t ->
     forall res, ~ In (wmi.EvQueryPhysical res) t).
Proof.
  intros Hrun. inv_collect Hrun.
  all: split; [split; intros Hin; in_events; simpl; auto 20|].
  all: split; [intros Hin; in_events; reflexivity|].
  all: intros Hin res Hp; in_events.
Qed.

(** X20: [Collect] queries only the kinds of disk that are enabled, and
    the physical disks only when the logical disks are disabled or their
    query succeeded; a run that returns nil has queried every enabled
    kind, with success. *)
Theorem Collect_queries (c : wmi.Disk) w r c' w' t :
  Collect' c w = ((r, c'), w', t) ->
  (forall res, In (wmi.EvQueryLogical res) t -> wmi.logical c = true) /\
  (forall res, In (wmi.EvQueryPhysical res) t ->
     wmi.physical c = true /\
     (wmi.logical c = true ->
      exists rows, In (wmi.EvQueryLogical (Ok rows)) t)) /\
  (r = None ->
     (wmi.logical c = true ->
      exists rows, In (wmi.EvQueryLogical (Ok rows)) t) /\
     (wmi.physical c = true ->
      exists rows, In (wmi.EvQueryPhysical (Ok rows)) t)).
Proof.
  intros Hrun. inv_collect Hrun.
  all: split; [intros res Hin; in_events; congruence|].
  all: split;
    [ intros res Hin; in_events;
      (split; [congruence|]); intros Hl;
      first [ congruence | eexists; simpl; eauto 20 ]
    | intros Hr; try discriminate Hr;
      split; intros Hl;
      first [ congruence | eexists; simpl; eauto 20 ] ].
Qed.

End CollectMore.

(** *** The theorems on scripted runs of the disk collector *)

Section CollectMoreRuns.
Import wmi.Sim DiskRuns.

Lemma Collect_outcomes_witness :
  (exists e, (e = ErrTTLNotExpired \/ e = ErrAlreadyRunning) /\
     fst (value (wmi.Sim.Collect d_idle at_100s)) = Some e /\
     snd (value (wmi.Sim.Collect d_idle at_100s)) = d_idle /\
     Forall (fun e => wmi.collects e = false)
       (trace (wmi.Sim.Collect d_idle at_100s))) \/
  (exists pre err,
     trace (wmi.Sim.Collect d_idle at_100s) = (pre ++ [wmi.EvSetStatus err])%list /\
     Forall (fun e => is_SetStatus e = false) pre /\
     fst (value (wmi.Sim.Collect d_idle at_100s)) =
       match err with
       | Some e =>
           Some (errors_Wrap e
                   (wmi.pkgID (wmi.common (snd (value (wmi.Sim.Collect d_idle at_100s))))))
       | None => None
       end).
Proof.
  apply (Collect_outcomes Now Query Query tt (fun _ m _ => m) (fun _ m _ => m)
           setStatus d_idle at_100s
           (fst (value (wmi.Sim.Collect d_idle at_100s)))
           (snd (value (wmi.Sim.Collect d_idle at_100s)))
           (snd (fst (wmi.Sim.Collect d_idle at_100s)))
           (trace (wmi.Sim.Collect d_idle at_100s))).
  vm_compute. reflexivity.
Defined.

Lemma Collect_lock_discipline_witness :
  exists held rest,
    trace (Collect_physical_fails d_idle at_100s) =
      wmi.EvLock :: (held ++ wmi.EvUnlock :: rest)%list /\
    Forall (fun e => under_lock e = true) held /\
    Forall (fun e => is_mutex e = false) rest.
Proof.
  apply (Collect_lock_discipline Now Query QueryFails tt
           (fun _ m _ => m) (fun _ m _ => m) setStatus d_idle at_100s
           (fst (value (Collect_physical_fails d_idle at_100s)))
           (snd (value (Collect_physical_fails d_idle at_100s)))
           (snd (fst (Collect_physical_fails d_idle at_100s)))).
  vm_compute. reflexivity.
Defined.

Lemma Collect_query_failure_witness :
  fst (value (Collect_logical_fails d_idle at_100s)) =
    Some (errors_Wrap denied "builtins.windows.wmi.disk") /\
  forall res, ~ In (wmi.EvQueryPhysical res)
                   (trace (Collect_logical_fails d_idle at_100s)).
Proof.
  pose proof (Collect_query_failure Now QueryFails Query tt
           (fun _ m _ => m) (fun _ m _ => m) setStatus d_idle at_100s
           (fst (value (Collect_logical_fails d_idle at_100s)))
           (snd (value (Collect_logical_fails d_idle at_100s)))
           (snd (fst (Collect_logical_fails d_idle at_100s)))
           (trace (Collect_logical_fails d_idle at_100s)) denied eq_refl)
    as (Hiff & Hret & Hskip).
  split.
  - apply Hret. vm_compute. tauto.
  - apply Hskip. vm_compute. tauto.
Defined.

Lemma Collect_queries_witness :
  (exists rows, In (wmi.EvQueryLogical (Ok rows))
                  (trace (wmi.Sim.Collect d_idle at_100s))) /\
  (exists rows, In (wmi.EvQueryPhysical (Ok rows))
                  (trace (wmi.Sim.Collect d_idle at_100s))).
Proof.
  pose proof (Collect_queries Now Query Query tt
           (fun _ m _ => m) (fun _ m _ => m) setStatus d_idle at_100s
           (fst (value (wmi.Sim.Collect d_idle at_100s)))
           (snd (value (wmi.Sim.Collect d_idle at_100s)))
           (snd (fst (wmi.Sim.Collect d_idle at_100s)))
           (trace (wmi.Sim.Collect d_idle at_100s)) eq_refl)
    as (_ & _ & Hnil).
  destruct Hnil as [Hl Hp]; [vm_compute; reflexivity|].
  split; [apply Hl | apply Hp]; reflexivity.
Defined.

End CollectMoreRuns.
